(** * dcrlibwallet: wallet lifecycle and synchronisation orchestration

    A shallow embedding of [wallet.go] (unlock, lock, passphrase changes) and
    of the sync file (SpvSync, RpcSync, connectToRpcClient, CancelSync,
    RescanBlocks) of package [dcrlibwallet].

    Go state is passed explicitly.  A [LibWallet] value holds the fields of
    the Go struct together with the pieces of the Go runtime the methods act
    on: the wallet objects reachable through pointers, the byte memory behind
    the passphrase slices, and a chronological trace of the effects that leave
    the package (listener callbacks, cancellations, goroutines, ...). *)

From Stdlib Require Import ZArith Lia Strings.Byte Strings.Ascii Strings.String.
From stdpp Require Import base strings list.

Local Open Scope string_scope.
Local Open Scope list_scope.

(** ** Errors *)

(** Modelled from the spec: the string constants [ErrEmptySeed], ...,
    [ErrInvalidAuth] are declared in a file of the package that is not part of
    the sources at hand; section 7 of the specification lists them as
    pairwise distinct kinds. *)
Inductive ErrorKind : Type :=
  | ErrEmptySeed
  | ErrInvalidPeers
  | ErrInvalidAddress
  | ErrSyncAlreadyInProgress
  | ErrWalletNotLoaded
  | ErrNotConnected
  | ErrInvalid
  | ErrContextCanceled
  | ErrUnavailable
  | ErrInvalidAuth.

(** Go [error] values that occur in the two files. *)
Inductive error : Type :=
  | ErrCode (k : ErrorKind)                 (* errors.New(ErrX), errors.E(ErrX) *)
  | ErrText (msg : string)                  (* fmt.Errorf(msg) *)
  | CtxCanceled                             (* context.Canceled *)
  | CtxDeadlineExceeded                     (* context.DeadlineExceeded *)
  | RpcErrInvalidAuth                       (* rpcclient.ErrInvalidAuth *)
  | ErrWrap (msg : string) (cause : error)  (* errors.E("...: %v", cause) *)
  | ErrForeign (tag : nat).                 (* any other error of a collaborator *)

(** A Go call either returns or panics (method call through a nil pointer). *)
Inductive outcome (A : Type) : Type :=
  | Ret (a : A)
  | Panic.
Arguments Ret {A} a.
Arguments Panic {A}.

(** ** Data *)

Definition ptr := nat.          (* pointer to a wallet.Wallet *)
Definition Listener := nat.     (* a registered blockchainsync.ProgressListener *)
Definition Ctx := nat.          (* context.Context *)
Definition CancelFunc := nat.   (* context.CancelFunc, named after its context *)

(** A chain.RPCClient, as built by chain.NewRPCClient. *)
Record RPCClient : Type := {
  rpcAddress : string;
  rpcUser : string;
  rpcPass : string;
  rpcCert : list byte;
  rpcDisableTLS : bool
}.

(** The value put in the wallet's network backend slot. *)
Inductive Backend : Type :=
  | SPVSyncer (w : ptr) (persistentPeers : list string)   (* spv.NewSyncer + SetPersistantPeers *)
  | RPCBackend (client : RPCClient).                      (* chain.BackendFromRPCClient *)

(** The part of a wallet.Wallet the package observes. *)
Record WalletObj : Type := {
  locked : bool;
  networkBackend : option Backend
}.

(** blockchainsync.PROGRESS and blockchainsync.FINISH. *)
Inductive RescanPhase : Type := PROGRESS | FINISH.

(** Methods of blockchainsync.ProgressListener. *)
Inductive ListenerCall : Type :=
  | OnPeerConnected (peerCount : Z)
  | OnPeerDisconnected (peerCount : Z)
  | OnRescan (rescannedThrough : Z) (phase : RescanPhase)
  | OnSynced (synced : bool)
  | OnSyncError (code : Z) (err : error).

(** Bodies of the goroutines started with [go]. *)
Inductive Task : Type :=
  | SpvRun (syncer : Backend) (ctx : Ctx)        (* syncer.Run(ctx) *)
  | RpcRun (w : ptr) (client : RPCClient) (ctx : Ctx)   (* syncer.Run(ctx, true) *)
  | RescanRun (backend : option Backend).        (* the rescan goroutine *)

Inductive Event : Type :=
  | Notify (l : Listener) (c : ListenerCall)   (* a callback on listener l *)
  | CancelInvoked (c : CancelFunc)             (* lw.cancelSync() *)
  | WalletLock (w : ptr)                       (* w.Lock() *)
  | ClientStart (client : RPCClient) (ctx : Ctx)   (* chainClient.Start(ctx, false) *)
  | Spawn (t : Task)                           (* go func() {...}() *)
  | LogError (err : error).                    (* log.Error(err) *)

(** A []byte: the address of its first byte and its length. *)
Record slice : Type := { base : nat; len : nat }.

Definition memory := nat -> byte.

(** One element of the rescan progress channel (wallet.RescanProgress). *)
Record RescanProgress : Type := {
  ScannedThrough : Z;
  Err : option error
}.

(** The LibWallet struct (with its embedded syncData), followed by the
    runtime state its methods read and write. *)
Record LibWallet : Type := {
  defaultPort : string;                  (* lw.activeNet.Params.DefaultPort *)
  jsonRPCClientPort : string;            (* lw.activeNet.JSONRPCClientPort *)
  loadedWallet : option ptr;             (* lw.walletLoader.LoadedWallet() *)
  loaderBackend : option Backend;        (* set by lw.walletLoader.SetNetworkBackend *)
  wallet : option ptr;                   (* lw.wallet *)
  rpcClient : option RPCClient;          (* syncData.rpcClient *)
  cancelSync : option CancelFunc;        (* syncData.cancelSync *)
  syncProgressListeners : list Listener; (* syncData.syncProgressListeners *)
  rescanning : bool;                     (* syncData.rescanning *)
  objects : ptr -> WalletObj;            (* the wallets behind the pointers *)
  mem : memory;                          (* bytes behind the []byte arguments *)
  brk : nat;                             (* next free address for []byte(...) *)
  nextCtx : nat;                         (* next fresh context *)
  trace : list Event                     (* effects so far, oldest first *)
}.

(** ** Collaborators

    Code of other packages that the two files call.  utils.NormalizeAddress
    and translateError belong to this repository but their files are not
    among the sources; the others belong to dcrwallet and dcrd. *)
Class Collaborators : Type := {
  (* utils.NormalizeAddress(addr, defaultPort) (string, error) *)
  NormalizeAddress : string -> string -> string + error;
  (* translateError(err) error *)
  translateError : error -> error;
  (* wallet.Wallet method Unlock(passphrase, nil) error *)
  wallet_Unlock : WalletObj -> list byte -> WalletObj * option error;
  (* wallet.Wallet method ChangePrivatePassphrase(old, new) error *)
  wallet_ChangePrivatePassphrase :
    WalletObj -> list byte -> list byte -> WalletObj * option error;
  (* wallet.Wallet method ChangePublicPassphrase(old, new) error *)
  wallet_ChangePublicPassphrase :
    WalletObj -> list byte -> list byte -> WalletObj * option error;
  (* chain.NewRPCClient(params, addr, user, pass, cert, disableTLS) *)
  NewRPCClient :
    string -> string -> string -> list byte -> bool -> RPCClient + error;
  (* chain.RPCClient method Start(ctx, false) error *)
  RPCClient_Start : RPCClient -> Ctx -> option error;
  (* errors.Match(errors.E(context.Canceled), err) *)
  errors_Match_Canceled : error -> bool
}.

(** ** Field updates *)

Definition set_trace (t : list Event) (lw : LibWallet) : LibWallet :=
  {| defaultPort := defaultPort lw; jsonRPCClientPort := jsonRPCClientPort lw;
     loadedWallet := loadedWallet lw; loaderBackend := loaderBackend lw;
     wallet := wallet lw; rpcClient := rpcClient lw;
     cancelSync := cancelSync lw;
     syncProgressListeners := syncProgressListeners lw;
     rescanning := rescanning lw; objects := objects lw; mem := mem lw;
     brk := brk lw; nextCtx := nextCtx lw; trace := t |}.

Definition set_loaderBackend (b : option Backend) (lw : LibWallet) : LibWallet :=
  {| defaultPort := defaultPort lw; jsonRPCClientPort := jsonRPCClientPort lw;
     loadedWallet := loadedWallet lw; loaderBackend := b;
     wallet := wallet lw; rpcClient := rpcClient lw;
     cancelSync := cancelSync lw;
     syncProgressListeners := syncProgressListeners lw;
     rescanning := rescanning lw; objects := objects lw; mem := mem lw;
     brk := brk lw; nextCtx := nextCtx lw; trace := trace lw |}.

Definition set_rpcClient (c : option RPCClient) (lw : LibWallet) : LibWallet :=
  {| defaultPort := defaultPort lw; jsonRPCClientPort := jsonRPCClientPort lw;
     loadedWallet := loadedWallet lw; loaderBackend := loaderBackend lw;
     wallet := wallet lw; rpcClient := c;
     cancelSync := cancelSync lw;
     syncProgressListeners := syncProgressListeners lw;
     rescanning := rescanning lw; objects := objects lw; mem := mem lw;
     brk := brk lw; nextCtx := nextCtx lw; trace := trace lw |}.

Definition set_cancelSync (c : option CancelFunc) (lw : LibWallet) : LibWallet :=
  {| defaultPort := defaultPort lw; jsonRPCClientPort := jsonRPCClientPort lw;
     loadedWallet := loadedWallet lw; loaderBackend := loaderBackend lw;
     wallet := wallet lw; rpcClient := rpcClient lw;
     cancelSync := c;
     syncProgressListeners := syncProgressListeners lw;
     rescanning := rescanning lw; objects := objects lw; mem := mem lw;
     brk := brk lw; nextCtx := nextCtx lw; trace := trace lw |}.

Definition set_syncProgressListeners (ls : list Listener) (lw : LibWallet)
  : LibWallet :=
  {| defaultPort := defaultPort lw; jsonRPCClientPort := jsonRPCClientPort lw;
     loadedWallet := loadedWallet lw; loaderBackend := loaderBackend lw;
     wallet := wallet lw; rpcClient := rpcClient lw;
     cancelSync := cancelSync lw;
     syncProgressListeners := ls;
     rescanning := rescanning lw; objects := objects lw; mem := mem lw;
     brk := brk lw; nextCtx := nextCtx lw; trace := trace lw |}.

Definition set_rescanning (b : bool) (lw : LibWallet) : LibWallet :=
  {| defaultPort := defaultPort lw; jsonRPCClientPort := jsonRPCClientPort lw;
     loadedWallet := loadedWallet lw; loaderBackend := loaderBackend lw;
     wallet := wallet lw; rpcClient := rpcClient lw;
     cancelSync := cancelSync lw;
     syncProgressListeners := syncProgressListeners lw;
     rescanning := b; objects := objects lw; mem := mem lw;
     brk := brk lw; nextCtx := nextCtx lw; trace := trace lw |}.

Definition set_objects (o : ptr -> WalletObj) (lw : LibWallet) : LibWallet :=
  {| defaultPort := defaultPort lw; jsonRPCClientPort := jsonRPCClientPort lw;
     loadedWallet := loadedWallet lw; loaderBackend := loaderBackend lw;
     wallet := wallet lw; rpcClient := rpcClient lw;
     cancelSync := cancelSync lw;
     syncProgressListeners := syncProgressListeners lw;
     rescanning := rescanning lw; objects := o; mem := mem lw;
     brk := brk lw; nextCtx := nextCtx lw; trace := trace lw |}.

Definition set_mem (m : memory) (next : nat) (lw : LibWallet) : LibWallet :=
  {| defaultPort := defaultPort lw; jsonRPCClientPort := jsonRPCClientPort lw;
     loadedWallet := loadedWallet lw; loaderBackend := loaderBackend lw;
     wallet := wallet lw; rpcClient := rpcClient lw;
     cancelSync := cancelSync lw;
     syncProgressListeners := syncProgressListeners lw;
     rescanning := rescanning lw; objects := objects lw; mem := m;
     brk := next; nextCtx := nextCtx lw; trace := trace lw |}.

Definition set_nextCtx (n : nat) (lw : LibWallet) : LibWallet :=
  {| defaultPort := defaultPort lw; jsonRPCClientPort := jsonRPCClientPort lw;
     loadedWallet := loadedWallet lw; loaderBackend := loaderBackend lw;
     wallet := wallet lw; rpcClient := rpcClient lw;
     cancelSync := cancelSync lw;
     syncProgressListeners := syncProgressListeners lw;
     rescanning := rescanning lw; objects := objects lw; mem := mem lw;
     brk := brk lw; nextCtx := n; trace := trace lw |}.

(** Append effects to the trace. *)
Definition emit (evs : list Event) (lw : LibWallet) : LibWallet :=
  set_trace (trace lw ++ evs) lw.

(** Overwrite the wallet a pointer refers to. *)
Definition put_object (p : ptr) (w : WalletObj) (lw : LibWallet) : LibWallet :=
  set_objects (fun q => if decide (q = p) then w else objects lw q) lw.

(** ** Byte memory *)

Definition zero : byte := x00.

Definition store (m : memory) (a : nat) (b : byte) : memory :=
  fun x => if decide (x = a) then b else m x.

(** [for i := range s { s[i] = 0 }], element [i] living at [a + i]. *)
Fixpoint wipe_from (m : memory) (a n : nat) : memory :=
  match n with
  | O => m
  | S k => wipe_from (store m a zero) (S a) k
  end.

Definition wipe (s : slice) (m : memory) : memory := wipe_from m (base s) (len s).

(** The bytes a slice denotes. *)
Definition load (m : memory) (s : slice) : list byte :=
  map m (seq (base s) (len s)).

Fixpoint store_bytes (m : memory) (a : nat) (bs : list byte) : memory :=
  match bs with
  | [] => m
  | b :: rest => store_bytes (store m a b) (S a) rest
  end.

(** [[]byte(str)]: a fresh slice holding the bytes. *)
Definition alloc_bytes (bs : list byte) (lw : LibWallet) : slice * LibWallet :=
  ({| base := brk lw; len := length bs |},
   set_mem (store_bytes (mem lw) (brk lw) bs) (brk lw + length bs) lw).

Definition wipe_slice (s : slice) (lw : LibWallet) : LibWallet :=
  set_mem (wipe s (mem lw)) (brk lw) lw.

(** Every byte of the slice is zero. *)
Definition all_zero (m : memory) (s : slice) : Prop :=
  forall i, i < len s -> m (base s + i) = zero.

(** wallet.InsecurePubPassphrase of dcrwallet, as bytes. *)
Definition InsecurePubPassphrase : list byte :=
  ["p"; "u"; "b"; "l"; "i"; "c"]%byte.

(** ** Strings and machine integers *)

(** strings.Split(s, sep) for a one-character separator: the pieces between
    the separators, one more than there are separators. *)
Fixpoint strings_Split (s : string) (sep : ascii) : list string :=
  match s with
  | EmptyString => [EmptyString]
  | String c rest =>
      if decide (c = sep) then EmptyString :: strings_Split rest sep
      else match strings_Split rest sep with
           | piece :: pieces => String c piece :: pieces
           | [] => [String c EmptyString]
           end
  end.

(** The value an int32 variable holds after being assigned [z]. *)
Definition int32 (z : Z) : Z := ((z + 2 ^ 31) mod 2 ^ 32 - 2 ^ 31)%Z.

(** ** wallet.go *)

Section Methods.
Context {ext : Collaborators}.

(** UnlockWallet: the wipe is deferred only after the loaded-wallet check. *)
Definition UnlockWallet (privPass : slice) (lw : LibWallet)
  : outcome (option error) * LibWallet :=
  match loadedWallet lw with
  | None => (Ret (Some (ErrText "wallet has not been loaded")), lw)
  | Some loaded =>
      let '(w', err) := wallet_Unlock (objects lw loaded) (load (mem lw) privPass) in
      let lw1 := put_object loaded w' lw in
      (* deferred *)
      (Ret err, wipe_slice privPass lw1)
  end.

(** LockWallet. *)
Definition LockWallet (lw : LibWallet) : outcome unit * LibWallet :=
  match wallet lw with
  | None => (Panic, lw)
  | Some p =>
      let w := objects lw p in
      if locked w then
        (Ret tt,
         emit [WalletLock p]
           (put_object p {| locked := true; networkBackend := networkBackend w |} lw))
      else (Ret tt, lw)
  end.

(** ChangePrivatePassphrase: both wipes are deferred on entry, so they also
    run when the call through [lw.wallet] panics. *)
Definition ChangePrivatePassphrase (oldPass newPass : slice) (lw : LibWallet)
  : outcome (option error) * LibWallet :=
  let '(r, lw1) :=
    match wallet lw with
    | None => (Panic, lw)
    | Some p =>
        let '(w', err) :=
          wallet_ChangePrivatePassphrase (objects lw p)
            (load (mem lw) oldPass) (load (mem lw) newPass) in
        let lw1 := put_object p w' lw in
        match err with
        | Some e => (Ret (Some (translateError e)), lw1)
        | None => (Ret None, lw1)
        end
    end in
  (* deferred *)
  (r, wipe_slice newPass (wipe_slice oldPass lw1)).

(** ChangePublicPassphrase.  The deferred closure reads the variables
    [oldPass] and [newPass] when it runs, that is after an empty one has been
    replaced by a fresh copy of the default passphrase. *)
Definition ChangePublicPassphrase (oldPass newPass : slice) (lw : LibWallet)
  : outcome (option error) * LibWallet :=
  let '(oldPass, lw) :=
    if decide (len oldPass = 0) then alloc_bytes InsecurePubPassphrase lw
    else (oldPass, lw) in
  let '(newPass, lw) :=
    if decide (len newPass = 0) then alloc_bytes InsecurePubPassphrase lw
    else (newPass, lw) in
  let '(r, lw1) :=
    match wallet lw with
    | None => (Panic, lw)
    | Some p =>
        let '(w', err) :=
          wallet_ChangePublicPassphrase (objects lw p)
            (load (mem lw) oldPass) (load (mem lw) newPass) in
        let lw1 := put_object p w' lw in
        match err with
        | Some e => (Ret (Some (translateError e)), lw1)
        | None => (Ret None, lw1)
        end
    end in
  (* deferred *)
  (r, wipe_slice newPass (wipe_slice oldPass lw1)).

(** ** The sync file *)

Definition AddSyncProgressListener (l : Listener) (lw : LibWallet) : LibWallet :=
  set_syncProgressListeners (syncProgressListeners lw ++ [l]) lw.

(** [for _, l := range lw.syncProgressListeners { l.call }]. *)
Definition broadcast (c : ListenerCall) (lw : LibWallet) : LibWallet :=
  emit (map (fun l => Notify l c) (syncProgressListeners lw)) lw.

(** Modelled from the spec: notifySyncError is defined in a file that is not
    among the sources.  Per sections 3 and 4.5 an error event is a call of
    OnSyncError(code, error) on every registered listener, in registration
    order. *)
Definition notifySyncError (code : Z) (err : error) (lw : LibWallet) : LibWallet :=
  broadcast (OnSyncError code err) lw.

(** Modelled from the spec: contextWithShutdownCancel is defined in a file
    that is not among the sources.  Per section 5 it derives a fresh
    cancellable context (also cancelled at process shutdown) and returns it
    with its cancellation handle. *)
Definition contextWithShutdownCancel (lw : LibWallet) : Ctx * CancelFunc * LibWallet :=
  (nextCtx lw, nextCtx lw, set_nextCtx (S (nextCtx lw)) lw).

(** The NetworkBackend() method of dcrwallet's wallet: the slot, and an error
    (of dcrwallet's own, an [ErrForeign] here) when the slot is empty. *)
Definition wallet_NetworkBackend (w : WalletObj) : option Backend * option error :=
  match networkBackend w with
  | Some b => (Some b, None)
  | None => (None, Some (ErrForeign 0))
  end.

(** w.SetNetworkBackend(b) through a pointer. *)
Definition wallet_SetNetworkBackend (p : ptr) (b : Backend) (lw : LibWallet) : LibWallet :=
  put_object p {| locked := locked (objects lw p); networkBackend := Some b |} lw.

Definition getLoadedWalletForSyncing (lw : LibWallet) : ptr + error :=
  match loadedWallet lw with
  | Some loaded =>
      match fst (wallet_NetworkBackend (objects lw loaded)) with
      | Some _ => inr (ErrCode ErrSyncAlreadyInProgress)
      | None => inl loaded
      end
  | None => inr (ErrCode ErrWalletNotLoaded)
  end.

(** The loop of SpvSync over the split addresses. *)
Fixpoint normalizePeers (addresses validPeerAddresses : list string) (lw : LibWallet)
  : list string * LibWallet :=
  match addresses with
  | [] => (validPeerAddresses, lw)
  | address :: rest =>
      match NormalizeAddress address (defaultPort lw) with
      | inr err =>
          normalizePeers rest validPeerAddresses
            (notifySyncError 3 (ErrWrap "SPV peer address invalid: %v" err) lw)
      | inl peerAddress =>
          normalizePeers rest (validPeerAddresses ++ [peerAddress]) lw
      end
  end.

(** What a sync goroutine does once syncer.Run has returned [runResult]. *)
Definition syncRunReturned (runResult : option error) (lw : LibWallet) : LibWallet :=
  match runResult with
  | None => lw
  | Some CtxCanceled =>
      notifySyncError 1 (ErrWrap "SPV synchronization canceled: %v" CtxCanceled) lw
  | Some CtxDeadlineExceeded =>
      notifySyncError 2
        (ErrWrap "SPV synchronization deadline exceeded: %v" CtxDeadlineExceeded) lw
  | Some err => notifySyncError (-1) err lw
  end.

Definition SpvSync (peerAddresses : string) (lw : LibWallet)
  : outcome (option error) * LibWallet :=
  match getLoadedWalletForSyncing lw with
  | inr err => (Ret (Some err), lw)
  | inl loaded =>
      let '(validPeerAddresses, lw1) :=
        if decide (peerAddresses = "") then ([], lw)
        else normalizePeers (strings_Split peerAddresses ";"%char) [] lw in
      if negb (bool_decide (peerAddresses = ""))
         && bool_decide (length validPeerAddresses = 0)
      then (Ret (Some (ErrCode ErrInvalidPeers)), lw1)
      else
        (* SetPersistantPeers is called only for a non-empty list *)
        let syncer := SPVSyncer loaded validPeerAddresses in
        let lw2 := wallet_SetNetworkBackend loaded syncer lw1 in
        let lw3 := set_loaderBackend (Some syncer) lw2 in
        let '(ctx, cancel, lw4) := contextWithShutdownCancel lw3 in
        let lw5 := set_cancelSync (Some cancel) lw4 in
        (Ret None, emit [Spawn (SpvRun syncer ctx)] lw5)
  end.

(** connectToRpcClient.  The mutex around the two accesses of lw.rpcClient has
    no effect on a single thread of control and is not represented. *)
Definition connectToRpcClient (ctx : Ctx) (networkAddress username password : string)
    (cert : list byte) (lw : LibWallet) : (RPCClient + error) * LibWallet :=
  match rpcClient lw with
  | Some chainClient => (inl chainClient, lw)
  | None =>
      match NormalizeAddress networkAddress (jsonRPCClientPort lw) with
      | inr _ => (inr (ErrCode ErrInvalidAddress), lw)
      | inl networkAddress =>
          match NewRPCClient networkAddress username password cert
                  (bool_decide (length cert = 0)) with
          | inr err => (inr (translateError err), lw)
          | inl chainClient =>
              let lw1 := emit [ClientStart chainClient ctx] lw in
              match RPCClient_Start chainClient ctx with
              | Some err =>
                  match err with
                  | RpcErrInvalidAuth => (inr (ErrCode ErrInvalid), lw1)
                  | _ =>
                      if errors_Match_Canceled err
                      then (inr (ErrCode ErrContextCanceled), lw1)
                      else (inr (ErrCode ErrUnavailable), lw1)
                  end
              | None => (inl chainClient, set_rpcClient (Some chainClient) lw1)
              end
          end
      end
  end.

Definition RpcSync (networkAddress username password : string) (cert : list byte)
    (lw : LibWallet) : outcome (option error) * LibWallet :=
  match getLoadedWalletForSyncing lw with
  | inr err => (Ret (Some err), lw)
  | inl loaded =>
      let '(ctx, cancel, lw1) := contextWithShutdownCancel lw in
      let lw2 := set_cancelSync (Some cancel) lw1 in
      match connectToRpcClient ctx networkAddress username password cert lw2 with
      | (inr err, lw3) => (Ret (Some err), lw3)
      | (inl chainClient, lw3) =>
          let networkBackend := RPCBackend chainClient in
          let lw4 := set_loaderBackend (Some networkBackend) lw3 in
          let lw5 := wallet_SetNetworkBackend loaded networkBackend lw4 in
          let lw6 := broadcast (OnPeerDisconnected (-1)) lw5 in
          (Ret None, emit [Spawn (RpcRun loaded chainClient ctx)] lw6)
      end
  end.

Definition CancelSync (lw : LibWallet) : LibWallet :=
  let lw1 :=
    match cancelSync lw with
    | Some cancel => emit [CancelInvoked cancel] lw
    | None => lw
    end in
  broadcast (OnSynced false) lw1.

(** RescanBlocks, the part that runs before the goroutine is started. *)
Definition RescanBlocks (lw : LibWallet) : outcome (option error) * LibWallet :=
  match wallet lw with
  | None => (Panic, lw)
  | Some p =>
      let '(netBackend, err) := wallet_NetworkBackend (objects lw p) in
      match err with
      | Some _ => (Ret (Some (ErrCode ErrNotConnected)), lw)
      | None =>
          if rescanning lw then (Ret (Some (ErrCode ErrInvalid)), lw)
          else (Ret None, emit [Spawn (RescanRun netBackend)] lw)
      end
  end.

(** [for p := range progress]: [None] when an item carried an error and the
    goroutine returned from inside the loop, [Some totalHeight] when the
    channel was closed. *)
Fixpoint rescanLoop (progress : list RescanProgress) (totalHeight : Z) (lw : LibWallet)
  : option Z * LibWallet :=
  match progress with
  | [] => (Some totalHeight, lw)
  | p :: rest =>
      match Err p with
      | Some err => (None, emit [LogError err] lw)
      | None =>
          rescanLoop rest (int32 (totalHeight + ScannedThrough p))
            (broadcast (OnRescan (ScannedThrough p) PROGRESS) lw)
      end
  end.

(** The rescan goroutine, run to its end on the items [progress] that
    RescanProgressFromHeight sends before closing the channel; [ctxDone]
    tells whether ctx.Done() is ready when the loop is left. *)
Definition rescanTask (progress : list RescanProgress) (ctxDone : bool) (lw : LibWallet)
  : LibWallet :=
  let lw1 := set_rescanning true lw in
  let '(_, _, lw2) := contextWithShutdownCancel lw1 in
  let lw3 :=
    match rescanLoop progress 0 lw2 with
    | (None, lw') => lw'
    | (Some totalHeight, lw') =>
        if ctxDone then broadcast (OnRescan totalHeight PROGRESS) lw'
        else broadcast (OnRescan totalHeight FINISH) lw'
    end in
  (* deferred *)
  set_rescanning false lw3.

End Methods.

(** ** Vocabulary of the statements *)

Section Vocabulary.
Context {ext : Collaborators}.

(** The callbacks one event delivers to the listeners, in their order. *)
Definition deliveries (c : ListenerCall) (ls : list Listener) : list Event :=
  map (fun l => Notify l c) ls.

(** An entry of the peer list normalizes against the default port. *)
Definition wellFormed (port address : string) : bool :=
  match NormalizeAddress address port with
  | inl _ => true
  | inr _ => false
  end.

(** The normalized forms of the well-formed entries, in list order. *)
Fixpoint normalized (port : string) (addresses : list string) : list string :=
  match addresses with
  | [] => []
  | address :: rest =>
      match NormalizeAddress address port with
      | inl peerAddress => peerAddress :: normalized port rest
      | inr _ => normalized port rest
      end
  end.

(** The error notifications for the malformed entries, in list order. *)
Fixpoint peerErrors (port : string) (ls : list Listener) (addresses : list string)
  : list Event :=
  match addresses with
  | [] => []
  | address :: rest =>
      match NormalizeAddress address port with
      | inl _ => peerErrors port ls rest
      | inr err =>
          deliveries (OnSyncError 3 (ErrWrap "SPV peer address invalid: %v" err)) ls
          ++ peerErrors port ls rest
      end
  end.

End Vocabulary.

(** The sum the rescan goroutine keeps in its int32 variable totalHeight. *)
Definition totalHeightOf (progress : list RescanProgress) : Z :=
  fold_left (fun acc p => int32 (acc + ScannedThrough p)) progress 0%Z.

(** The per-item callbacks of a rescan. *)
Definition progressEvents (ls : list Listener) (progress : list RescanProgress)
  : list Event :=
  flat_map (fun p => deliveries (OnRescan (ScannedThrough p) PROGRESS) ls) progress.

Definition isSpawn (e : Event) : bool :=
  match e with Spawn _ => true | _ => false end.

Definition isFinish (e : Event) : bool :=
  match e with Notify _ (OnRescan _ FINISH) => true | _ => false end.

Definition isCancel (e : Event) : bool :=
  match e with CancelInvoked _ => true | _ => false end.

Definition isWalletLock (e : Event) : bool :=
  match e with WalletLock _ => true | _ => false end.

Definition isClientStart (e : Event) : bool :=
  match e with ClientStart _ _ => true | _ => false end.

(** Between [lw] and [lw'] one backend was attached: the loaded wallet had an
    empty slot, now it and the loader hold the same backend, and no other
    wallet was touched. *)
Definition attachedOne (lw lw' : LibWallet) : Prop :=
  exists (loaded : ptr) (b : Backend),
    loadedWallet lw = Some loaded
    /\ loadedWallet lw' = Some loaded
    /\ networkBackend (objects lw loaded) = None
    /\ networkBackend (objects lw' loaded) = Some b
    /\ loaderBackend lw' = Some b
    /\ forall q, q <> loaded -> objects lw' q = objects lw q.

(** Listeners registered one after the other. *)
Definition registerAll (ls : list Listener) (lw : LibWallet) : LibWallet :=
  fold_left (fun acc l => AddSyncProgressListener l acc) ls lw.

(** ** A concrete environment

    Stand-ins for the collaborators and a few wallet states, on which the
    methods can be run. *)

Fixpoint mentions (c : ascii) (s : string) : bool :=
  match s with
  | EmptyString => false
  | String d rest => if decide (d = c) then true else mentions c rest
  end.

(** Rejects addresses with a stray bracket; appends the default port when the
    address has none, so that the empty address becomes the port alone. *)
Definition sampleNormalize (addr port : string) : string + error :=
  if mentions "]"%char addr then inr (ErrText "unexpected ] in address")
  else if mentions ":"%char addr then inl addr
  else inl (String.append addr (String.append ":" port)).

Definition samplePassphrase : list byte := ["s"; "e"; "s"; "a"; "m"; "e"]%byte.

#[local] Instance byte_eq_dec : EqDecision byte.
Proof. intros x y. destruct (Byte.byte_eq_dec x y); [left | right]; assumption. Defined.

Definition sampleCollaborators : Collaborators := {|
  NormalizeAddress := sampleNormalize;
  translateError := fun err => err;
  wallet_Unlock := fun w pass =>
    if decide (pass = samplePassphrase)
    then ({| locked := false; networkBackend := networkBackend w |}, None)
    else (w, Some (ErrForeign 1));
  wallet_ChangePrivatePassphrase := fun w old new =>
    if decide (old = samplePassphrase) then (w, None) else (w, Some (ErrForeign 1));
  wallet_ChangePublicPassphrase := fun w old new =>
    if decide (old = InsecurePubPassphrase) then (w, None)
    else (w, Some (ErrForeign 1));
  NewRPCClient := fun addr user pass cert disableTLS =>
    inl {| rpcAddress := addr; rpcUser := user; rpcPass := pass;
           rpcCert := cert; rpcDisableTLS := disableTLS |};
  RPCClient_Start := fun client ctx =>
    (* Start hands every error back wrapped in its operation *)
    if decide (rpcPass client = "hunter2") then None
    else Some (ErrWrap "chain.RPCClient.Start" RpcErrInvalidAuth);
  errors_Match_Canceled := fun err =>
    match err with
    | ErrWrap _ CtxCanceled => true
    | _ => false
    end
|}.

(** Memory holding [bs] from address 0 on. *)
Definition memoryOf (bs : list byte) : memory := fun a => nth a bs zero.

(** No wallet loaded; two listeners; the sample passphrase at address 0. *)
Definition sampleClosed : LibWallet := {|
  defaultPort := "9108";
  jsonRPCClientPort := "9109";
  loadedWallet := None;
  loaderBackend := None;
  wallet := None;
  rpcClient := None;
  cancelSync := None;
  syncProgressListeners := [10; 11];
  rescanning := false;
  objects := fun _ => {| locked := true; networkBackend := None |};
  mem := memoryOf samplePassphrase;
  brk := 64;
  nextCtx := 0;
  trace := []
|}.

(** Wallet 0 loaded and locked, no backend attached. *)
Definition sampleOpened : LibWallet := {|
  defaultPort := "9108";
  jsonRPCClientPort := "9109";
  loadedWallet := Some 0;
  loaderBackend := None;
  wallet := Some 0;
  rpcClient := None;
  cancelSync := None;
  syncProgressListeners := [10; 11];
  rescanning := false;
  objects := fun _ => {| locked := true; networkBackend := None |};
  mem := memoryOf samplePassphrase;
  brk := 64;
  nextCtx := 0;
  trace := []
|}.

(** The same wallet, unlocked. *)
Definition sampleUnlocked : LibWallet :=
  set_objects (fun _ => {| locked := false; networkBackend := None |}) sampleOpened.

(** The passphrase argument of the samples: six bytes at address 0. *)
Definition sampleSlice : slice := {| base := 0; len := 6 |}.

(** A client that is already connected and cached. *)
Definition sampleClient : RPCClient := {|
  rpcAddress := "127.0.0.1:9109"; rpcUser := "user"; rpcPass := "hunter2";
  rpcCert := []; rpcDisableTLS := true
|}.

Definition sampleCached : LibWallet := set_rpcClient (Some sampleClient) sampleOpened.

(** ** The rest of wallet.go: existence, creation, opening and closing

    These methods work through lw.walletLoader.  A loader has no reference to
    the LibWallet that owns it: what its methods can change is its own loaded
    wallet and backend slot and the wallets it manages. *)

Definition set_wallet (w : option ptr) (lw : LibWallet) : LibWallet :=
  {| defaultPort := defaultPort lw; jsonRPCClientPort := jsonRPCClientPort lw;
     loadedWallet := loadedWallet lw; loaderBackend := loaderBackend lw;
     wallet := w; rpcClient := rpcClient lw;
     cancelSync := cancelSync lw;
     syncProgressListeners := syncProgressListeners lw;
     rescanning := rescanning lw; objects := objects lw; mem := mem lw;
     brk := brk lw; nextCtx := nextCtx lw; trace := trace lw |}.

Definition set_loadedWallet (w : option ptr) (lw : LibWallet) : LibWallet :=
  {| defaultPort := defaultPort lw; jsonRPCClientPort := jsonRPCClientPort lw;
     loadedWallet := w; loaderBackend := loaderBackend lw;
     wallet := wallet lw; rpcClient := rpcClient lw;
     cancelSync := cancelSync lw;
     syncProgressListeners := syncProgressListeners lw;
     rescanning := rescanning lw; objects := objects lw; mem := mem lw;
     brk := brk lw; nextCtx := nextCtx lw; trace := trace lw |}.

(** The state a loader method can read and write. *)
Record LoaderState : Type := {
  ldWallet : option ptr;
  ldBackend : option Backend;
  ldObjects : ptr -> WalletObj
}.

Definition TxIndexDB := nat.   (* the handle txindex.Initialize returns *)

(** Collaborators of the lifecycle methods.  The loader and
    walletseed.DecodeUserInput belong to dcrwallet, filepath.Join to the Go
    library; package txindex belongs to this repository but is not among the
    sources.  The two closures OpenWallet hands to txindex.Initialize are
    capabilities of the index and are not represented. *)
Class LifecycleCollaborators : Type := {
  (* walletseed.DecodeUserInput(mnemonic) ([]byte, error) *)
  walletseed_DecodeUserInput : string -> list byte + error;
  (* Loader.WalletExists() (bool, error) *)
  loader_WalletExists : LoaderState -> bool * option error;
  (* Loader.CreateNewWallet(pubPass, privPass, seed) *)
  loader_CreateNewWallet :
    list byte -> list byte -> list byte -> LoaderState -> (ptr + error) * LoaderState;
  (* Loader.OpenExistingWallet(pubPass) *)
  loader_OpenExistingWallet : list byte -> LoaderState -> (ptr + error) * LoaderState;
  (* Loader.UnloadWallet() error *)
  loader_UnloadWallet : LoaderState -> option error * LoaderState;
  (* filepath.Join(dir, name) *)
  filepath_Join : string -> string -> string;
  (* txindex.DbName *)
  txindex_DbName : string;
  (* txindex.Initialize(path, generateWalletAddress, addressMatchesWallet) *)
  txindex_Initialize : string -> TxIndexDB + error;
  (* err.Error() *)
  error_Error : error -> string
}.

Definition loaderOf (lw : LibWallet) : LoaderState :=
  {| ldWallet := loadedWallet lw; ldBackend := loaderBackend lw;
     ldObjects := objects lw |}.

Definition withLoader (st : LoaderState) (lw : LibWallet) : LibWallet :=
  set_objects (ldObjects st)
    (set_loaderBackend (ldBackend st) (set_loadedWallet (ldWallet st) lw)).

(** The fields of LibWallet that only OpenWallet uses, next to the others. *)
Record LibWalletDisk : Type := {
  core : LibWallet;
  walletDataDir : string;            (* lw.walletDataDir *)
  txIndexDB : option TxIndexDB       (* lw.txIndexDB *)
}.

Section Lifecycle.
Context {ext : Collaborators} {life : LifecycleCollaborators}.

Definition WalletExists (lw : LibWallet) : bool * option error :=
  loader_WalletExists (loaderOf lw).

(** CreateWallet.  log.Info leaves no trace; log.Error does. *)
Definition CreateWallet (passphrase seedMnemonic : string) (lw : LibWallet)
  : option error * LibWallet :=
  if decide (String.length seedMnemonic = 0)
  then (Some (ErrCode ErrEmptySeed), lw)
  else
    let '(pubPass, lw1) := alloc_bytes InsecurePubPassphrase lw in
    let '(privPass, lw2) := alloc_bytes (list_byte_of_string passphrase) lw1 in
    match walletseed_DecodeUserInput seedMnemonic with
    | inr err => (Some err, emit [LogError err] lw2)
    | inl seed =>
        let '(r, st) :=
          loader_CreateNewWallet (load (mem lw2) pubPass) (load (mem lw2) privPass)
            seed (loaderOf lw2) in
        let lw3 := withLoader st lw2 in
        match r with
        | inr err => (Some err, emit [LogError err] lw3)
        | inl w => (None, set_wallet (Some w) lw3)
        end
    end.

(** OpenWallet. *)
Definition OpenWallet (pubPass : slice) (d : LibWalletDisk)
  : option error * LibWalletDisk :=
  let lw := core d in
  let '(r, st) := loader_OpenExistingWallet (load (mem lw) pubPass) (loaderOf lw) in
  let lw1 := withLoader st lw in
  match r with
  | inr err =>
      (Some (translateError err),
       {| core := emit [LogError err] lw1; walletDataDir := walletDataDir d;
          txIndexDB := txIndexDB d |})
  | inl w =>
      let lw2 := set_wallet (Some w) lw1 in
      let txIndexDbPath := filepath_Join (walletDataDir d) txindex_DbName in
      match txindex_Initialize txIndexDbPath with
      | inr err =>
          (Some (ErrText (String.append "tx index db initialization failed: "
                            (error_Error err))),
           {| core := emit [LogError
                              (ErrWrap "error initializing tx index database: %v" err)]
                        lw2;
              walletDataDir := walletDataDir d; txIndexDB := txIndexDB d |})
      | inl db =>
          (None,
           {| core := lw2; walletDataDir := walletDataDir d; txIndexDB := Some db |})
      end
  end.

Definition WalletOpened (lw : LibWallet) : bool :=
  match wallet lw with
  | Some _ => true
  | None => false
  end.

Definition CloseWallet (lw : LibWallet) : option error * LibWallet :=
  let '(err, st) := loader_UnloadWallet (loaderOf lw) in
  (err, withLoader st lw).

End Lifecycle.

(** ** More vocabulary *)

(** The bytes the wallet is given for a public passphrase argument. *)
Definition effectivePubPass (m : memory) (s : slice) : list byte :=
  if decide (len s = 0) then InsecurePubPassphrase else load m s.

(** Address [x] lies in the slice. *)
Definition inSlice (x : nat) (s : slice) : Prop := base s <= x < base s + len s.

(** strings.Join(pieces, sep) for a one-character separator. *)
Fixpoint strings_Join (pieces : list string) (sep : ascii) : string :=
  match pieces with
  | [] => EmptyString
  | [piece] => piece
  | piece :: rest => String.append piece (String sep (strings_Join rest sep))
  end.

(** Occurrences of a character in a string. *)
Fixpoint occurrences (c : ascii) (s : string) : nat :=
  match s with
  | EmptyString => 0
  | String d rest => (if decide (d = c) then 1 else 0) + occurrences c rest
  end.


(** The exact sum of the reported heights. *)
Definition scannedSum (progress : list RescanProgress) : Z :=
  fold_right (fun p acc => (ScannedThrough p + acc)%Z) 0%Z progress.

(** The code a run result is reported under. *)
Definition syncErrorCode (err : error) : Z :=
  match err with
  | CtxCanceled => 1
  | CtxDeadlineExceeded => 2
  | _ => -1
  end.

Definition isPeerDisconnected (e : Event) : bool :=
  match e with Notify _ (OnPeerDisconnected _) => true | _ => false end.

(** Stand-ins for the lifecycle collaborators. *)
Definition sampleLifecycle : LifecycleCollaborators := {|
  walletseed_DecodeUserInput := fun mnemonic =>
    if mentions "]"%char mnemonic then inr (ErrForeign 2)
    else inl (list_byte_of_string mnemonic);
  loader_WalletExists := fun st =>
    (match ldWallet st with Some _ => true | None => false end, None);
  loader_CreateNewWallet := fun pub priv seed st =>
    match ldWallet st with
    | Some _ => (inr (ErrForeign 3), st)
    | None =>
        (inl 1, {| ldWallet := Some 1; ldBackend := ldBackend st;
                   ldObjects := ldObjects st |})
    end;
  loader_OpenExistingWallet := fun pub st =>
    if decide (pub = InsecurePubPassphrase)
    then (inl 0, {| ldWallet := Some 0; ldBackend := ldBackend st;
                    ldObjects := ldObjects st |})
    else (inr (ErrForeign 4), st);
  loader_UnloadWallet := fun st =>
    match ldWallet st with
    | Some _ =>
        (None, {| ldWallet := None; ldBackend := ldBackend st;
                  ldObjects := ldObjects st |})
    | None => (Some (ErrForeign 5), st)
    end;
  filepath_Join := fun dir name => String.append dir (String "/"%char name);
  txindex_DbName := "txindex.db";
  txindex_Initialize := fun path =>
    if decide (path = "/txindex.db") then inr (ErrForeign 6) else inl 0;
  error_Error := fun _ => "cannot open index"
|}.

(** The closed wallet with the default public passphrase at address 0. *)
Definition sampleOnDisk (dir : string) : LibWalletDisk := {|
  core := set_mem (memoryOf InsecurePubPassphrase) 64 sampleClosed;
  walletDataDir := dir;
  txIndexDB := None
|}.

(** * Properties *)

(** ** Field updates and the trace *)

Lemma emit_nil (lw : LibWallet) : emit [] lw = lw.
Proof. destruct lw. unfold emit, set_trace. simpl. by rewrite app_nil_r. Qed.

Lemma emit_emit (e1 e2 : list Event) (lw : LibWallet) :
  emit e2 (emit e1 lw) = emit (e1 ++ e2) lw.
Proof. unfold emit, set_trace. simpl. by rewrite app_assoc. Qed.

Lemma broadcast_emit (c : ListenerCall) (lw : LibWallet) :
  broadcast c lw = emit (deliveries c (syncProgressListeners lw)) lw.
Proof. reflexivity. Qed.

(** ** Wiping a slice *)

Lemma wipe_from_outside (m : memory) (a n x : nat) :
  x < a \/ a + n <= x -> wipe_from m a n x = m x.
Proof.
  revert m a. induction n as [|n IH]; intros m a Hx; simpl; [done|].
  rewrite IH by lia. unfold store. case_decide; [lia | done].
Qed.

Lemma wipe_from_inside (m : memory) (a n x : nat) :
  a <= x < a + n -> wipe_from m a n x = zero.
Proof.
  revert m a. induction n as [|n IH]; intros m a Hx; simpl; [lia|].
  destruct (decide (x = a)) as [->|Hne].
  - rewrite wipe_from_outside by lia. unfold store. by case_decide.
  - apply IH. lia.
Qed.

Lemma wipe_from_keeps_zero (m : memory) (a n x : nat) :
  m x = zero -> wipe_from m a n x = zero.
Proof.
  intros Hz.
  destruct (decide (a <= x < a + n)) as [Hin|Hout].
  - by apply wipe_from_inside.
  - rewrite wipe_from_outside by lia. done.
Qed.

Lemma wipe_all_zero (s : slice) (m : memory) : all_zero (wipe s m) s.
Proof. intros i Hi. unfold wipe. apply wipe_from_inside. lia. Qed.

Lemma wipe_preserves_all_zero (s t : slice) (m : memory) :
  all_zero m t -> all_zero (wipe s m) t.
Proof. intros Hz i Hi. unfold wipe. apply wipe_from_keeps_zero. by apply Hz. Qed.

Lemma all_zero_empty (m : memory) (s : slice) : len s = 0 -> all_zero m s.
Proof. intros Hlen i Hi. lia. Qed.

Section WalletFile.
Context {ext : Collaborators}.

(** With a loaded wallet UnlockWallet leaves its argument all zero, whatever
    the wallet answers. *)
Lemma UnlockWallet_loaded_wipes (privPass : slice) (lw : LibWallet) (p : ptr) :
  loadedWallet lw = Some p ->
  all_zero (mem (snd (UnlockWallet privPass lw))) privPass.
Proof.
  intros Hl. unfold UnlockWallet. rewrite Hl.
  destruct (wallet_Unlock _ _) as [w' err]. simpl. apply wipe_all_zero.
Qed.

(** Without a loaded wallet UnlockWallet returns before the wipe is deferred
    and changes nothing. *)
Lemma UnlockWallet_not_loaded (privPass : slice) (lw : LibWallet) :
  loadedWallet lw = None ->
  UnlockWallet privPass lw
  = (Ret (Some (ErrText "wallet has not been loaded")), lw).
Proof. intros Hl. unfold UnlockWallet. by rewrite Hl. Qed.

(** ChangePrivatePassphrase leaves both arguments all zero on every exit:
    success, translated error and panic. *)
Lemma ChangePrivatePassphrase_wipes (oldPass newPass : slice) (lw : LibWallet) :
  let lw' := snd (ChangePrivatePassphrase oldPass newPass lw) in
  all_zero (mem lw') oldPass /\ all_zero (mem lw') newPass.
Proof.
  unfold ChangePrivatePassphrase.
  destruct (wallet lw) as [p|]; [destruct (wallet_ChangePrivatePassphrase _ _ _) as [w' [e|]]|];
    simpl; (split; [apply wipe_preserves_all_zero|]; apply wipe_all_zero).
Qed.

(** ChangePublicPassphrase leaves both arguments of the caller all zero on
    every exit.  An empty argument is replaced by a copy of the default
    passphrase, and it is the copy that is wiped. *)
Lemma ChangePublicPassphrase_wipes (oldPass newPass : slice) (lw : LibWallet) :
  let lw' := snd (ChangePublicPassphrase oldPass newPass lw) in
  all_zero (mem lw') oldPass /\ all_zero (mem lw') newPass.
Proof.
  unfold ChangePublicPassphrase.
  destruct (decide (len oldPass = 0)) as [Ho|Ho];
    destruct (decide (len newPass = 0)) as [Hn|Hn]; simpl;
    match goal with
    | |- context [wallet ?l] => destruct (wallet l) as [p|]
    end;
    try match goal with
    | |- context [wallet_ChangePublicPassphrase ?a ?b ?c] =>
        destruct (wallet_ChangePublicPassphrase a b c) as [w' [e|]]
    end; simpl;
    (split;
     [ first [ by apply all_zero_empty
             | apply wipe_preserves_all_zero; apply wipe_all_zero ]
     | first [ by apply all_zero_empty | apply wipe_all_zero ] ]).
Qed.

(** LockWallet on an unlocked wallet does nothing. *)
Lemma LockWallet_unlocked (lw : LibWallet) (p : ptr) :
  wallet lw = Some p -> locked (objects lw p) = false ->
  LockWallet lw = (Ret tt, lw).
Proof. intros Hw Hl. unfold LockWallet. by rewrite Hw, Hl. Qed.

(** LockWallet on a locked wallet calls Lock. *)
Lemma LockWallet_locked (lw : LibWallet) (p : ptr) :
  wallet lw = Some p -> locked (objects lw p) = true ->
  trace (snd (LockWallet lw)) = trace lw ++ [WalletLock p].
Proof. intros Hw Hl. unfold LockWallet. by rewrite Hw, Hl. Qed.

End WalletFile.

(** C1 (the code departs from the claim).  UnlockWallet called while no wallet
    is loaded returns its error before the deferred wipe is installed: the
    caller's passphrase buffer still holds every byte of the passphrase, so it
    is not all zero when the call returns. *)
Theorem UnlockWallet_not_loaded_keeps_passphrase :
  let r := @UnlockWallet sampleCollaborators sampleSlice sampleClosed in
  fst r = Ret (Some (ErrText "wallet has not been loaded"))
  /\ load (mem (snd r)) sampleSlice = samplePassphrase
  /\ ~ all_zero (mem (snd r)) sampleSlice.
Proof.
  split; [reflexivity|]. split; [reflexivity|].
  intros Hz. specialize (Hz 0). simpl in Hz.
  assert (H : 0 < 6) by lia. specialize (Hz H). discriminate Hz.
Qed.

(** C2 (the code departs from the claim).  LockWallet tests [Locked()] without
    negation: on an unlocked wallet it returns without calling Lock and the
    wallet stays unlocked, while on a locked wallet it does call Lock. *)
Theorem LockWallet_skips_unlocked_wallet :
  let r := LockWallet sampleUnlocked in
  locked (objects sampleUnlocked 0) = false
  /\ fst r = Ret tt
  /\ List.filter isWalletLock (trace (snd r)) = []
  /\ locked (objects (snd r) 0) = false
  /\ List.filter isWalletLock (trace (snd (LockWallet sampleOpened)))
     = [WalletLock 0].
Proof. repeat split; reflexivity. Qed.

(** ** Starting a sync *)

Section SyncFile.
Context {ext : Collaborators}.

Lemma guard_not_loaded (lw : LibWallet) :
  loadedWallet lw = None ->
  getLoadedWalletForSyncing lw = inr (ErrCode ErrWalletNotLoaded).
Proof. intros Hl. unfold getLoadedWalletForSyncing. by rewrite Hl. Qed.

Lemma guard_attached (lw : LibWallet) (loaded : ptr) (b : Backend) :
  loadedWallet lw = Some loaded ->
  networkBackend (objects lw loaded) = Some b ->
  getLoadedWalletForSyncing lw = inr (ErrCode ErrSyncAlreadyInProgress).
Proof.
  intros Hl Hb. unfold getLoadedWalletForSyncing, wallet_NetworkBackend.
  by rewrite Hl, Hb.
Qed.

Lemma guard_passes (lw : LibWallet) (loaded : ptr) :
  getLoadedWalletForSyncing lw = inl loaded <->
  loadedWallet lw = Some loaded /\ networkBackend (objects lw loaded) = None.
Proof.
  unfold getLoadedWalletForSyncing, wallet_NetworkBackend.
  destruct (loadedWallet lw) as [q|]; [|split; [done | by intros [? _]]].
  destruct (networkBackend (objects lw q)) as [b|] eqn:Hb; simpl.
  - split; [done | intros [[= ->] Hn]; congruence].
  - split; [by intros [= ->] | by intros [[= ->] _]].
Qed.

(** The loop over the peer list: the valid addresses are collected in order
    and every malformed entry costs one error notification per listener. *)
Lemma normalizePeers_spec (addresses valid : list string) (lw : LibWallet) :
  normalizePeers addresses valid lw
  = (valid ++ normalized (defaultPort lw) addresses,
     emit (peerErrors (defaultPort lw) (syncProgressListeners lw) addresses) lw).
Proof.
  revert valid lw. induction addresses as [|a rest IH]; intros valid lw; simpl.
  - by rewrite app_nil_r, emit_nil.
  - destruct (NormalizeAddress a (defaultPort lw)) as [peer|err].
    + rewrite IH. by rewrite <- app_assoc.
    + rewrite IH. unfold notifySyncError. rewrite broadcast_emit. simpl.
      by rewrite emit_emit.
Qed.

Lemma normalized_nil (port : string) (addresses : list string) :
  normalized port addresses = [] <->
  Forall (fun a => wellFormed port a = false) addresses.
Proof.
  induction addresses as [|a rest IH]; simpl.
  - split; [constructor | done].
  - unfold wellFormed at 1.
    destruct (NormalizeAddress a port) as [peer|err] eqn:Hn.
    + split; [done|]. intros HF. inversion HF as [|? ? Ha _]. unfold wellFormed in Ha.
      rewrite Hn in Ha. discriminate.
    + rewrite IH. split.
      * intros HF. constructor; [|done]. unfold wellFormed. by rewrite Hn.
      * intros HF. by inversion HF.
Qed.

Lemma some_well_formed (port : string) (addresses : list string) :
  Exists (fun a => wellFormed port a = true) addresses ->
  normalized port addresses <> [].
Proof.
  intros HE Hnil. apply normalized_nil in Hnil.
  apply Exists_exists in HE as (a & Ha & Hw).
  rewrite Forall_forall in Hnil. specialize (Hnil a Ha). congruence.
Qed.

Lemma deliveries_no_spawn (c : ListenerCall) (ls : list Listener) :
  List.filter isSpawn (deliveries c ls) = [].
Proof. induction ls as [|l ls IH]; [done | exact IH]. Qed.

Lemma peerErrors_no_spawn (port : string) (ls : list Listener) (addresses : list string) :
  List.filter isSpawn (peerErrors port ls addresses) = [].
Proof.
  induction addresses as [|a rest IH]; simpl; [done|].
  destruct (NormalizeAddress a port); [done|].
  by rewrite List.filter_app, IH, deliveries_no_spawn.
Qed.

(** What SpvSync does once the guard has passed and a peer list is given. *)
Lemma SpvSync_with_peers (peerAddresses : string) (lw : LibWallet) (loaded : ptr) :
  peerAddresses <> "" ->
  getLoadedWalletForSyncing lw = inl loaded ->
  let port := defaultPort lw in
  let entries := strings_Split peerAddresses ";"%char in
  let lw1 := emit (peerErrors port (syncProgressListeners lw) entries) lw in
  let syncer := SPVSyncer loaded (normalized port entries) in
  SpvSync peerAddresses lw
  = if decide (normalized port entries = [])
    then (Ret (Some (ErrCode ErrInvalidPeers)), lw1)
    else (Ret None,
          emit [Spawn (SpvRun syncer (nextCtx lw))]
            (set_cancelSync (Some (nextCtx lw))
               (set_nextCtx (S (nextCtx lw))
                  (set_loaderBackend (Some syncer)
                     (wallet_SetNetworkBackend loaded syncer lw1))))).
Proof.
  intros Hne Hg. simpl. unfold SpvSync. rewrite Hg.
  destruct (decide (peerAddresses = "")) as [|_]; [done|].
  rewrite normalizePeers_spec. simpl.
  rewrite bool_decide_eq_false_2 by done. simpl.
  destruct (normalized (defaultPort lw) (strings_Split peerAddresses ";")) as [|v vs] eqn:Hv.
  - rewrite decide_True by done. reflexivity.
  - rewrite decide_False by done. reflexivity.
Qed.

(** C5.  Past the loaded-wallet guard and for a non-empty peer list: SpvSync
    returns InvalidPeers exactly when every entry of the semicolon-separated
    list fails normalization, and then attaches nothing and starts no
    goroutine; when at least one entry normalizes it returns nil, attaches the
    syncer with the normalized entries as persistent peers, and each
    malformed entry has only cost an OnSyncError(3, ...) notification to every
    listener. *)
Theorem SpvSync_peer_list (peerAddresses : string) (lw : LibWallet) (loaded : ptr) :
  peerAddresses <> "" ->
  getLoadedWalletForSyncing lw = inl loaded ->
  let port := defaultPort lw in
  let entries := strings_Split peerAddresses ";"%char in
  let errs := peerErrors port (syncProgressListeners lw) entries in
  let r := SpvSync peerAddresses lw in
  (fst r = Ret (Some (ErrCode ErrInvalidPeers)) <->
   Forall (fun a => wellFormed port a = false) entries)
  /\ (Forall (fun a => wellFormed port a = false) entries ->
      snd r = emit errs lw
      /\ networkBackend (objects (snd r) loaded) = None
      /\ loaderBackend (snd r) = loaderBackend lw
      /\ List.filter isSpawn (trace (snd r)) = List.filter isSpawn (trace lw))
  /\ (Exists (fun a => wellFormed port a = true) entries ->
      fst r = Ret None
      /\ networkBackend (objects (snd r) loaded)
         = Some (SPVSyncer loaded (normalized port entries))
      /\ loaderBackend (snd r) = Some (SPVSyncer loaded (normalized port entries))
      /\ trace (snd r)
         = trace lw ++ errs
           ++ [Spawn (SpvRun (SPVSyncer loaded (normalized port entries)) (nextCtx lw))]).
Proof.
  intros Hne Hg. simpl.
  rewrite (SpvSync_with_peers _ _ _ Hne Hg). simpl.
  pose proof (proj1 (guard_passes lw loaded) Hg) as [Hl Hb].
  split; [|split].
  - rewrite <- normalized_nil. case_decide; simpl; split; congruence.
  - intros HF. apply normalized_nil in HF. rewrite decide_True by done. simpl.
    split; [done|]. split; [done|]. split; [done|].
    by rewrite List.filter_app, peerErrors_no_spawn, app_nil_r.
  - intros HE. apply some_well_formed in HE. rewrite decide_False by done. simpl.
    split; [done|]. split; [by rewrite decide_True|]. split; [done|].
    by rewrite <- app_assoc.
Qed.

End SyncFile.

(** ** Connecting to the RPC server *)

Section Connect.
Context {ext : Collaborators}.

(** connectToRpcClient touches the cached client and the trace only, and
    starts no goroutine. *)
Lemma connectToRpcClient_frame (ctx : Ctx) (a u p : string) (cert : list byte)
    (lw lw' : LibWallet) (r : RPCClient + error) :
  connectToRpcClient ctx a u p cert lw = (r, lw') ->
  objects lw' = objects lw
  /\ loadedWallet lw' = loadedWallet lw
  /\ loaderBackend lw' = loaderBackend lw
  /\ cancelSync lw' = cancelSync lw
  /\ syncProgressListeners lw' = syncProgressListeners lw
  /\ List.filter isSpawn (trace lw') = List.filter isSpawn (trace lw).
Proof.
  unfold connectToRpcClient. intros H.
  repeat case_match; simplify_eq; simpl;
    rewrite ?List.filter_app, ?app_nil_r; done.
Qed.

(** With a cached client nothing is normalized, built or started: the cached
    client is returned and the state is left as it was. *)
Lemma connectToRpcClient_cached (ctx : Ctx) (a u p : string) (cert : list byte)
    (lw : LibWallet) (client : RPCClient) :
  rpcClient lw = Some client ->
  connectToRpcClient ctx a u p cert lw = (inl client, lw).
Proof. intros Hc. unfold connectToRpcClient. by rewrite Hc. Qed.

(** A server that rejects the credentials makes connectToRpcClient return the
    code ErrInvalid. *)
Lemma connectToRpcClient_rejected (ctx : Ctx) (a a' u p : string) (cert : list byte)
    (lw : LibWallet) (client : RPCClient) :
  rpcClient lw = None ->
  NormalizeAddress a (jsonRPCClientPort lw) = inl a' ->
  NewRPCClient a' u p cert (bool_decide (length cert = 0)) = inl client ->
  RPCClient_Start client ctx = Some RpcErrInvalidAuth ->
  connectToRpcClient ctx a u p cert lw
  = (inr (ErrCode ErrInvalid), emit [ClientStart client ctx] lw).
Proof.
  intros Hc Hn Hnew Hs. unfold connectToRpcClient. by rewrite Hc, Hn, Hnew, Hs.
Qed.

(** A successful RpcSync, step by step. *)
Lemma RpcSync_success (a u p : string) (cert : list byte) (lw lw' : LibWallet) :
  RpcSync a u p cert lw = (Ret None, lw') ->
  exists (loaded : ptr) (client : RPCClient) (lw3 : LibWallet),
    getLoadedWalletForSyncing lw = inl loaded
    /\ connectToRpcClient (nextCtx lw) a u p cert
         (set_cancelSync (Some (nextCtx lw)) (set_nextCtx (S (nextCtx lw)) lw))
       = (inl client, lw3)
    /\ lw' = emit [Spawn (RpcRun loaded client (nextCtx lw))]
               (broadcast (OnPeerDisconnected (-1))
                  (wallet_SetNetworkBackend loaded (RPCBackend client)
                     (set_loaderBackend (Some (RPCBackend client)) lw3))).
Proof.
  unfold RpcSync. intros H.
  destruct (getLoadedWalletForSyncing lw) as [loaded|err]; [|done].
  simpl in H.
  destruct (connectToRpcClient _ _ _ _ _ _) as [[client|err] lw3] eqn:Hc; [|done].
  injection H as <-. by exists loaded, client, lw3.
Qed.

(** C4.  SpvSync and RpcSync return WalletNotLoaded when no wallet is loaded
    and SyncAlreadyInProgress when the loaded wallet has a backend attached,
    in both cases leaving the state untouched; a start that returns nil has
    attached one backend, to the loaded wallet and to the loader. *)
Theorem sync_start_guard (lw : LibWallet) :
  (loadedWallet lw = None ->
   (forall peers,
      SpvSync peers lw = (Ret (Some (ErrCode ErrWalletNotLoaded)), lw))
   /\ (forall a u p cert,
      RpcSync a u p cert lw = (Ret (Some (ErrCode ErrWalletNotLoaded)), lw)))
  /\ (forall loaded b,
      loadedWallet lw = Some loaded ->
      networkBackend (objects lw loaded) = Some b ->
      (forall peers,
         SpvSync peers lw = (Ret (Some (ErrCode ErrSyncAlreadyInProgress)), lw))
      /\ (forall a u p cert,
         RpcSync a u p cert lw = (Ret (Some (ErrCode ErrSyncAlreadyInProgress)), lw)))
  /\ (forall peers lw', SpvSync peers lw = (Ret None, lw') -> attachedOne lw lw')
  /\ (forall a u p cert lw',
      RpcSync a u p cert lw = (Ret None, lw') -> attachedOne lw lw').
Proof.
  split; [|split; [|split]].
  - intros Hl. split; intros; unfold SpvSync, RpcSync;
      by rewrite (guard_not_loaded _ Hl).
  - intros loaded b Hl Hb. split; intros; unfold SpvSync, RpcSync;
      by rewrite (guard_attached _ _ _ Hl Hb).
  - intros peers lw' H. unfold SpvSync in H.
    destruct (getLoadedWalletForSyncing lw) as [loaded|err] eqn:Hg; [|done].
    apply guard_passes in Hg as [Hl Hb].
    destruct (decide (peers = "")) as [->|Hne].
    + simpl in H. injection H as <-. exists loaded, (SPVSyncer loaded []).
      simpl. rewrite decide_True by done. repeat split; try done.
      intros q Hq. by rewrite decide_False.
    + rewrite normalizePeers_spec in H. simpl in H.
      rewrite bool_decide_eq_false_2 in H by done. simpl in H.
      case_bool_decide; [done|]. simpl in H. injection H as <-.
      eexists loaded, _. simpl. rewrite decide_True by done.
      repeat split; try done. intros q Hq. by rewrite decide_False.
  - intros a u p cert lw' H.
    apply RpcSync_success in H as (loaded & client & lw3 & Hg & Hc & ->).
    apply guard_passes in Hg as [Hl Hb].
    apply connectToRpcClient_frame in Hc as (Ho & Hl3 & _). simpl in Ho, Hl3.
    exists loaded, (RPCBackend client). simpl. rewrite decide_True by done.
    rewrite Ho, Hl3. repeat split; try done.
    intros q Hq. by rewrite decide_False.
Qed.

End Connect.

(** A second start right after a successful one is refused. *)
Lemma second_start_rejected {ext : Collaborators} (lw lw' : LibWallet) :
  attachedOne lw lw' ->
  (forall peers,
     SpvSync peers lw' = (Ret (Some (ErrCode ErrSyncAlreadyInProgress)), lw'))
  /\ (forall a u p cert,
     RpcSync a u p cert lw' = (Ret (Some (ErrCode ErrSyncAlreadyInProgress)), lw')).
Proof.
  intros (loaded & b & _ & Hl & _ & Hb & _).
  split; intros; unfold SpvSync, RpcSync; by rewrite (guard_attached _ _ _ Hl Hb).
Qed.



(** C10.  While a client is cached, connectToRpcClient returns it and leaves
    the state as it is; RpcSync then gives the same result for all
    collaborators and all address, user, password and certificate arguments,
    can only fail on the loaded-wallet guard (so never with InvalidAddress,
    InvalidAuth, ContextCanceled or Unavailable), and past the guard succeeds
    with the cached client as backend and without starting a client. *)
Theorem cached_client_reused (ext1 ext2 : Collaborators) (lw : LibWallet)
    (client : RPCClient) :
  rpcClient lw = Some client ->
  (forall ctx a u p cert,
     @connectToRpcClient ext1 ctx a u p cert lw = (inl client, lw))
  /\ (forall a u p cert a' u' p' cert',
     @RpcSync ext1 a u p cert lw = @RpcSync ext2 a' u' p' cert' lw)
  /\ (forall a u p cert,
     let r := @RpcSync ext1 a u p cert lw in
     (fst r = Ret None
      \/ fst r = Ret (Some (ErrCode ErrWalletNotLoaded))
      \/ fst r = Ret (Some (ErrCode ErrSyncAlreadyInProgress)))
     /\ forall k,
        In k [ErrInvalidAddress; ErrInvalidAuth; ErrContextCanceled; ErrUnavailable] ->
        fst r <> Ret (Some (ErrCode k)))
  /\ (forall a u p cert loaded,
     getLoadedWalletForSyncing lw = inl loaded ->
     let r := @RpcSync ext1 a u p cert lw in
     fst r = Ret None
     /\ rpcClient (snd r) = Some client
     /\ networkBackend (objects (snd r) loaded) = Some (RPCBackend client)
     /\ loaderBackend (snd r) = Some (RPCBackend client)
     /\ List.filter isClientStart (trace (snd r))
        = List.filter isClientStart (trace lw)).
Proof.
  intros Hc.
  assert (Hrun : forall (e : Collaborators) a u p cert,
    @RpcSync e a u p cert lw
    = match getLoadedWalletForSyncing lw with
      | inr err => (Ret (Some err), lw)
      | inl loaded =>
          (Ret None,
           emit [Spawn (RpcRun loaded client (nextCtx lw))]
             (broadcast (OnPeerDisconnected (-1))
                (wallet_SetNetworkBackend loaded (RPCBackend client)
                   (set_loaderBackend (Some (RPCBackend client))
                      (set_cancelSync (Some (nextCtx lw))
                         (set_nextCtx (S (nextCtx lw)) lw))))))
      end).
  { intros e a u p cert. unfold RpcSync.
    destruct (getLoadedWalletForSyncing lw) as [loaded|err]; [|done].
    simpl. by rewrite (connectToRpcClient_cached (ext:=e) _ _ _ _ _ _ client). }
  split; [|split; [|split]].
  - intros. by apply connectToRpcClient_cached.
  - intros. by rewrite !Hrun.
  - intros a u p cert. simpl. rewrite Hrun.
    unfold getLoadedWalletForSyncing.
    destruct (loadedWallet lw) as [q|];
      [destruct (fst (wallet_NetworkBackend (objects lw q)))|]; simpl;
      (split; [auto|]); intros k Hk Heq; simpl in Hk;
      destruct Hk as [<-|[<-|[<-|[<-|[]]]]]; discriminate.
  - intros a u p cert loaded Hg. simpl. rewrite Hrun, Hg. simpl.
    rewrite decide_True by done. repeat split; try done.
    rewrite !List.filter_app. simpl. rewrite app_nil_r.
    assert (Hd : forall ls, List.filter isClientStart
                   (map (fun l => Notify l (OnPeerDisconnected (-1))) ls) = []).
    { induction ls as [|l ls IH]; [done | exact IH]. }
    by rewrite Hd, app_nil_r.
Qed.

(** ** Cancelling a sync *)

Lemma registerAll_spec (ls : list Listener) (lw : LibWallet) :
  registerAll ls lw
  = set_syncProgressListeners (syncProgressListeners lw ++ ls) lw.
Proof.
  revert lw. induction ls as [|l ls IH]; intros lw; simpl.
  - destruct lw. unfold set_syncProgressListeners. simpl. by rewrite app_nil_r.
  - unfold registerAll in IH. rewrite IH. unfold AddSyncProgressListener.
    unfold set_syncProgressListeners. simpl. by rewrite <- app_assoc.
Qed.

Lemma deliveries_no_cancel (c : ListenerCall) (ls : list Listener) :
  List.filter isCancel (deliveries c ls) = [].
Proof. induction ls as [|l ls IH]; [done | exact IH]. Qed.

(** C8.  With no stored cancellation handle CancelSync cancels nothing and
    its only effect is one OnSynced(false) per registered listener; listeners
    registered one after the other are called in that order. *)
Theorem CancelSync_without_handle (lw : LibWallet) :
  cancelSync lw = None ->
  CancelSync lw = emit (deliveries (OnSynced false) (syncProgressListeners lw)) lw
  /\ List.filter isCancel (trace (CancelSync lw)) = List.filter isCancel (trace lw)
  /\ forall ls,
     syncProgressListeners lw = [] ->
     trace (CancelSync (registerAll ls lw))
     = trace lw ++ deliveries (OnSynced false) ls.
Proof.
  intros Hc. split; [|split].
  - unfold CancelSync. by rewrite Hc.
  - unfold CancelSync. rewrite Hc, broadcast_emit. simpl.
    by rewrite List.filter_app, deliveries_no_cancel, app_nil_r.
  - intros ls Hls. rewrite registerAll_spec, Hls. unfold CancelSync. simpl.
    by rewrite Hc.
Qed.

(** ** The end of a sync run *)

Lemma syncRunReturned_emits (runResult : option error) (lw : LibWallet) :
  exists evs, syncRunReturned runResult lw = emit evs lw.
Proof.
  destruct runResult as [err|]; [|exists []; by rewrite emit_nil].
  destruct err; eexists; reflexivity.
Qed.

(** C9, as the code has it.  Nothing clears the cancellation handle: it is
    the same before and after the sync goroutine has handled the result of
    the run loop, and before and after CancelSync; after a start that
    returned nil it is the handle of the context created by that start, and
    it still is once the run loop has returned. *)
Theorem cancel_handle_kept {ext : Collaborators} (runResult : option error)
    (lw : LibWallet) :
  cancelSync (syncRunReturned runResult lw) = cancelSync lw
  /\ cancelSync (CancelSync lw) = cancelSync lw
  /\ (forall peers lw',
      SpvSync peers lw = (Ret None, lw') ->
      cancelSync (syncRunReturned runResult lw') = Some (nextCtx lw))
  /\ (forall a u p cert lw',
      RpcSync a u p cert lw = (Ret None, lw') ->
      cancelSync (syncRunReturned runResult lw') = Some (nextCtx lw)).
Proof.
  assert (Hkeep : forall l, cancelSync (syncRunReturned runResult l) = cancelSync l).
  { intros l. destruct (syncRunReturned_emits runResult l) as [evs ->]. done. }
  split; [apply Hkeep|]. split; [|split].
  - unfold CancelSync. destruct (cancelSync lw) as [c|] eqn:Hc; simpl; by rewrite Hc.
  - intros peers lw' H. rewrite Hkeep. unfold SpvSync in H.
    destruct (getLoadedWalletForSyncing lw) as [loaded|err]; [|done].
    destruct (decide (peers = "")) as [->|Hne].
    + simpl in H. by injection H as <-.
    + rewrite normalizePeers_spec in H. simpl in H.
      destruct (_ && _); [done|]. by injection H as <-.
  - intros a u p cert lw' H. rewrite Hkeep.
    apply RpcSync_success in H as (loaded & client & lw3 & _ & Hc & ->).
    apply connectToRpcClient_frame in Hc as (_ & _ & _ & Hcs & _). simpl.
    by rewrite Hcs.
Qed.

(** C9, as stated, fails: a sync without peers is started on the sample
    wallet, its run loop returns nil, and the handle is still stored. *)
Lemma cancel_handle_not_cleared :
  fst (@SpvSync sampleCollaborators "" sampleOpened) = Ret None
  /\ cancelSync
       (syncRunReturned None (snd (@SpvSync sampleCollaborators "" sampleOpened)))
     = Some 0
  /\ cancelSync
       (syncRunReturned None (snd (@SpvSync sampleCollaborators "" sampleOpened)))
     <> None.
Proof. split; [reflexivity|]. split; [reflexivity | discriminate]. Qed.

(** ** Rescans *)

Lemma rescanLoop_emits (progress : list RescanProgress) (total : Z) (lw : LibWallet) :
  exists evs, snd (rescanLoop progress total lw) = emit evs lw.
Proof.
  revert total lw. induction progress as [|p rest IH]; intros total lw; simpl.
  - exists []. by rewrite emit_nil.
  - destruct (Err p) as [err|]; [by eexists|].
    destruct (IH (int32 (total + ScannedThrough p))
                 (broadcast (OnRescan (ScannedThrough p) PROGRESS) lw)) as [evs ->].
    rewrite broadcast_emit, emit_emit. by eexists.
Qed.

(** A progress channel without error items is consumed to its end. *)
Lemma rescanLoop_clean (progress : list RescanProgress) (total : Z) (lw : LibWallet) :
  Forall (fun p => Err p = None) progress ->
  rescanLoop progress total lw
  = (Some (fold_left (fun acc p => int32 (acc + ScannedThrough p)) progress total),
     emit (progressEvents (syncProgressListeners lw) progress) lw).
Proof.
  revert total lw. induction progress as [|p rest IH]; intros total lw HF; simpl.
  - by rewrite emit_nil.
  - inversion HF as [|? ? Hp Hrest]; subst. rewrite Hp.
    rewrite IH by done. rewrite broadcast_emit, emit_emit. reflexivity.
Qed.

(** The goroutine changes the trace, the context counter and, for its
    duration, the flag. *)
Lemma rescanTask_emits (progress : list RescanProgress) (ctxDone : bool) (lw : LibWallet) :
  exists evs,
    rescanTask progress ctxDone lw
    = set_rescanning false
        (emit evs (set_nextCtx (S (nextCtx lw)) (set_rescanning true lw))).
Proof.
  unfold rescanTask. simpl.
  destruct (rescanLoop_emits progress 0
              (set_nextCtx (S (nextCtx lw)) (set_rescanning true lw))) as [evs Hevs].
  destruct (rescanLoop _ _ _) as [[total|] lw'] eqn:Hloop; simpl in Hevs; subst lw'.
  - destruct ctxDone; rewrite broadcast_emit, emit_emit; by eexists.
  - by eexists.
Qed.

(** C6.  RescanBlocks returns NotConnected when the wallet has no backend and
    Invalid when the rescanning flag is set; the flag is false once the
    rescan goroutine has exited, whatever the channel delivered and whether
    or not the context was cancelled, and RescanBlocks then starts again. *)
Theorem rescan_flag (lw : LibWallet) (p : ptr) :
  wallet lw = Some p ->
  (networkBackend (objects lw p) = None ->
   RescanBlocks lw = (Ret (Some (ErrCode ErrNotConnected)), lw))
  /\ (forall b,
      networkBackend (objects lw p) = Some b -> rescanning lw = true ->
      RescanBlocks lw = (Ret (Some (ErrCode ErrInvalid)), lw))
  /\ (forall progress ctxDone, rescanning (rescanTask progress ctxDone lw) = false)
  /\ (forall b progress ctxDone,
      networkBackend (objects lw p) = Some b ->
      fst (RescanBlocks (rescanTask progress ctxDone lw)) = Ret None).
Proof.
  intros Hw. split; [|split; [|split]].
  - intros Hb. unfold RescanBlocks, wallet_NetworkBackend. by rewrite Hw, Hb.
  - intros b Hb Hr. unfold RescanBlocks, wallet_NetworkBackend. by rewrite Hw, Hb, Hr.
  - intros progress ctxDone.
    by destruct (rescanTask_emits progress ctxDone lw) as [evs ->].
  - intros b progress ctxDone Hb.
    destruct (rescanTask_emits progress ctxDone lw) as [evs ->].
    unfold RescanBlocks, wallet_NetworkBackend. simpl. by rewrite Hw, Hb.
Qed.

(** C7.  When the progress channel is closed without having carried an error,
    the goroutine's last callbacks are one OnRescan(totalHeight, PROGRESS) per
    listener if the context was cancelled and one OnRescan(totalHeight,
    FINISH) per listener otherwise, totalHeight being the int32 sum of the
    reported values.  A rescan whose channel reported height 999 and whose
    context was then cancelled ends with OnRescan(999, PROGRESS) and never
    says FINISH. *)
Theorem rescan_final_callback (progress : list RescanProgress) (ctxDone : bool)
    (lw : LibWallet) :
  Forall (fun p => Err p = None) progress ->
  let ls := syncProgressListeners lw in
  trace (rescanTask progress ctxDone lw)
  = trace lw ++ progressEvents ls progress
    ++ deliveries (OnRescan (totalHeightOf progress)
                     (if ctxDone then PROGRESS else FINISH)) ls
  /\ (let upTo999 := [{| ScannedThrough := 999; Err := None |}] in
      trace (rescanTask upTo999 true lw)
      = trace lw ++ progressEvents ls upTo999 ++ deliveries (OnRescan 999 PROGRESS) ls
      /\ List.filter isFinish (progressEvents ls upTo999
                               ++ deliveries (OnRescan 999 PROGRESS) ls) = []).
Proof.
  intros HF ls. subst ls.
  assert (Hgen : forall items done,
    Forall (fun p => Err p = None) items ->
    trace (rescanTask items done lw)
    = trace lw ++ progressEvents (syncProgressListeners lw) items
      ++ deliveries (OnRescan (totalHeightOf items)
                       (if done then PROGRESS else FINISH))
           (syncProgressListeners lw)).
  { intros items done Hitems. unfold rescanTask. simpl.
    rewrite rescanLoop_clean by done. unfold totalHeightOf.
    destruct done; simpl; by rewrite <- app_assoc. }
  split; [by apply Hgen|]. cbv zeta. split.
  - rewrite Hgen by (by repeat constructor). reflexivity.
  - unfold progressEvents. simpl. rewrite app_nil_r, List.filter_app.
    assert (Hd : forall ls, List.filter isFinish (deliveries (OnRescan 999 PROGRESS) ls) = []).
    { induction ls as [|l ls IH]; [done | exact IH]. }
    by rewrite Hd.
Qed.

(** * The methods on concrete inputs *)

Example strings_Split_three :
  strings_Split "10.0.0.1;bad]addr;example.org:9108" ";"%char
  = ["10.0.0.1"; "bad]addr"; "example.org:9108"].
Proof. reflexivity. Qed.

Example strings_Split_trailing : strings_Split "a;" ";"%char = ["a"; ""].
Proof. reflexivity. Qed.

Example SpvSync_all_malformed :
  fst (@SpvSync sampleCollaborators "bad]addr;]" sampleOpened)
  = Ret (Some (ErrCode ErrInvalidPeers)).
Proof. reflexivity. Qed.

Example SpvSync_one_well_formed :
  loaderBackend (snd (@SpvSync sampleCollaborators "bad]addr;10.0.0.1" sampleOpened))
  = Some (SPVSyncer 0 ["10.0.0.1:9108"]).
Proof. reflexivity. Qed.

Example UnlockWallet_loaded_wrong_passphrase :
  let r := @UnlockWallet sampleCollaborators {| base := 1; len := 3 |} sampleOpened in
  fst r = Ret (Some (ErrForeign 1))
  /\ load (mem (snd r)) sampleSlice = ["s"; x00; x00; x00; "m"; "e"]%byte.
Proof. split; reflexivity. Qed.

(** The value sent with the last callback is the sum of the reported values:
    two reports, 1999 and 2999, end with 4998. *)
Example rescan_total_is_a_sum :
  totalHeightOf [{| ScannedThrough := 1999; Err := None |};
                 {| ScannedThrough := 2999; Err := None |}] = 4998%Z.
Proof. reflexivity. Qed.

(** An error item ends the goroutine without a last callback; the flag is
    cleared all the same. *)
Example rescan_error_item :
  let lw' := rescanTask [{| ScannedThrough := 0; Err := Some (ErrForeign 7) |}]
               false sampleOpened in
  trace lw' = [LogError (ErrForeign 7)] /\ rescanning lw' = false.
Proof. split; reflexivity. Qed.

(** ** Instances of the theorems above *)

Lemma sync_start_guard_witness :
  loadedWallet sampleClosed = None
  /\ @SpvSync sampleCollaborators "" sampleClosed
     = (Ret (Some (ErrCode ErrWalletNotLoaded)), sampleClosed)
  /\ attachedOne sampleOpened (snd (@SpvSync sampleCollaborators "" sampleOpened)).
Proof.
  split; [reflexivity|]. split.
  - exact (proj1 (proj1 (@sync_start_guard sampleCollaborators sampleClosed) eq_refl) "").
  - exact (proj1 (proj2 (proj2 (@sync_start_guard sampleCollaborators sampleOpened)))
             "" _ eq_refl).
Defined.


Lemma SpvSync_peer_list_witness :
  "10.0.0.1;bad]addr" <> ""
  /\ getLoadedWalletForSyncing sampleOpened = inl 0
  /\ fst (@SpvSync sampleCollaborators "10.0.0.1;bad]addr" sampleOpened) = Ret None
  /\ trace (snd (@SpvSync sampleCollaborators "10.0.0.1;bad]addr" sampleOpened))
     = [Notify 10 (OnSyncError 3 (ErrWrap "SPV peer address invalid: %v"
                                    (ErrText "unexpected ] in address")));
        Notify 11 (OnSyncError 3 (ErrWrap "SPV peer address invalid: %v"
                                    (ErrText "unexpected ] in address")));
        Spawn (SpvRun (SPVSyncer 0 ["10.0.0.1:9108"]) 0)].
Proof.
  assert (Hne : "10.0.0.1;bad]addr" <> "") by discriminate.
  assert (Hex : Exists (fun a => @wellFormed sampleCollaborators "9108" a = true)
                  ["10.0.0.1"; "bad]addr"]) by (left; reflexivity).
  pose proof (proj2 (proj2 (@SpvSync_peer_list sampleCollaborators
                              "10.0.0.1;bad]addr" sampleOpened 0 Hne eq_refl)) Hex)
    as (Hret & _ & _ & Htrace).
  split; [exact Hne|]. split; [reflexivity|]. split; [exact Hret | exact Htrace].
Defined.

Lemma rescan_flag_witness :
  wallet sampleOpened = Some 0
  /\ RescanBlocks sampleOpened = (Ret (Some (ErrCode ErrNotConnected)), sampleOpened)
  /\ rescanning
       (rescanTask [{| ScannedThrough := 5; Err := Some (ErrForeign 7) |}] true
          sampleOpened) = false.
Proof.
  split; [reflexivity|].
  pose proof (rescan_flag sampleOpened 0 eq_refl) as (Hnc & _ & Hflag & _).
  split; [exact (Hnc eq_refl) | apply Hflag].
Defined.

Lemma rescan_final_callback_witness :
  Forall (fun p => Err p = None)
    [{| ScannedThrough := 1999; Err := None |}; {| ScannedThrough := 2999; Err := None |}]
  /\ trace (rescanTask [{| ScannedThrough := 1999; Err := None |};
                        {| ScannedThrough := 2999; Err := None |}] false sampleOpened)
     = [Notify 10 (OnRescan 1999 PROGRESS); Notify 11 (OnRescan 1999 PROGRESS);
        Notify 10 (OnRescan 2999 PROGRESS); Notify 11 (OnRescan 2999 PROGRESS);
        Notify 10 (OnRescan 4998 FINISH); Notify 11 (OnRescan 4998 FINISH)].
Proof.
  assert (HF : Forall (fun p => Err p = None)
                 [{| ScannedThrough := 1999; Err := None |};
                  {| ScannedThrough := 2999; Err := None |}])
    by (repeat constructor).
  split; [exact HF|].
  exact (proj1 (rescan_final_callback _ false sampleOpened HF)).
Defined.

Lemma CancelSync_without_handle_witness :
  cancelSync sampleClosed = None
  /\ CancelSync sampleClosed
     = emit [Notify 10 (OnSynced false); Notify 11 (OnSynced false)] sampleClosed.
Proof.
  split; [reflexivity|].
  exact (proj1 (CancelSync_without_handle sampleClosed eq_refl)).
Defined.

Lemma cancel_handle_kept_witness :
  @SpvSync sampleCollaborators "" sampleOpened
  = (Ret None, snd (@SpvSync sampleCollaborators "" sampleOpened))
  /\ cancelSync
       (syncRunReturned (Some CtxDeadlineExceeded)
          (snd (@SpvSync sampleCollaborators "" sampleOpened)))
     = Some 0.
Proof.
  split; [reflexivity|].
  exact (proj1 (proj2 (proj2 (@cancel_handle_kept sampleCollaborators
                                (Some CtxDeadlineExceeded) sampleOpened)))
           "" _ eq_refl).
Defined.

Lemma cached_client_reused_witness :
  rpcClient sampleCached = Some sampleClient
  /\ getLoadedWalletForSyncing sampleCached = inl 0
  /\ fst (@RpcSync sampleCollaborators "bad]addr" "nobody" "wrong" [] sampleCached)
     = Ret None.
Proof.
  split; [reflexivity|]. split; [reflexivity|].
  exact (proj1 (proj2 (proj2 (proj2
           (cached_client_reused sampleCollaborators sampleCollaborators
              sampleCached sampleClient eq_refl)))
           "bad]addr" "nobody" "wrong" [] 0 eq_refl)).
Defined.

(** * Further properties of wallet.go *)

(** ** Passphrase memory *)

Lemma store_bytes_outside (m : memory) (a : nat) (bs : list byte) (x : nat) :
  x < a \/ a + length bs <= x -> store_bytes m a bs x = m x.
Proof.
  revert m a. induction bs as [|b bs IH]; intros m a Hx; simpl in *; [done|].
  rewrite IH by lia. unfold store. case_decide; [lia | done].
Qed.

Lemma load_ext (m1 m2 : memory) (s : slice) :
  (forall x, inSlice x s -> m1 x = m2 x) -> load m1 s = load m2 s.
Proof.
  intros H. unfold load. apply map_ext_in. intros x Hx.
  apply in_seq in Hx. apply H. unfold inSlice. lia.
Qed.

Lemma load_store_bytes (m : memory) (a : nat) (bs : list byte) :
  load (store_bytes m a bs) {| base := a; len := length bs |} = bs.
Proof.
  unfold load. simpl. revert m a. induction bs as [|b bs IH]; intros m a; simpl; [done|].
  rewrite IH. f_equal. rewrite store_bytes_outside by lia. unfold store.
  by rewrite decide_True.
Qed.

Lemma load_store_bytes_other (m : memory) (a : nat) (bs : list byte) (s : slice) :
  base s + len s <= a \/ a + length bs <= base s ->
  load (store_bytes m a bs) s = load m s.
Proof.
  intros H. apply load_ext. intros x Hx. unfold inSlice in Hx.
  apply store_bytes_outside. lia.
Qed.

Lemma wipe_outside (s : slice) (m : memory) (x : nat) :
  ~ inSlice x s -> wipe s m x = m x.
Proof. intros Hx. unfold wipe. apply wipe_from_outside. unfold inSlice in Hx. lia. Qed.

Section WalletFileMore.
Context {ext : Collaborators}.

(** X1.  ChangePrivatePassphrase and ChangePublicPassphrase leave both of
    the caller's passphrase buffers all zero on every exit (nil, translated
    error, panic on a nil lw.wallet), also when the two buffers overlap;
    UnlockWallet does so whenever a wallet is loaded. *)
Theorem passphrase_buffers_wiped (oldPass newPass : slice) (lw : LibWallet) :
  (all_zero (mem (snd (ChangePrivatePassphrase oldPass newPass lw))) oldPass
   /\ all_zero (mem (snd (ChangePrivatePassphrase oldPass newPass lw))) newPass)
  /\ (all_zero (mem (snd (ChangePublicPassphrase oldPass newPass lw))) oldPass
      /\ all_zero (mem (snd (ChangePublicPassphrase oldPass newPass lw))) newPass)
  /\ (forall p, loadedWallet lw = Some p ->
      all_zero (mem (snd (UnlockWallet oldPass lw))) oldPass).
Proof.
  split; [apply ChangePrivatePassphrase_wipes|].
  split; [apply ChangePublicPassphrase_wipes|].
  intros p Hp. by apply UnlockWallet_loaded_wipes with p.
Qed.

(** X2.  The wipes stay inside the buffers: a byte that belongs to none of
    the passphrase arguments has the same value after UnlockWallet and after
    ChangePrivatePassphrase as before, and so it has after
    ChangePublicPassphrase if it lies below the allocation mark. *)
Theorem wipes_stay_inside_buffers (oldPass newPass : slice) (lw : LibWallet) (x : nat) :
  ~ inSlice x oldPass -> ~ inSlice x newPass ->
  mem (snd (UnlockWallet oldPass lw)) x = mem lw x
  /\ mem (snd (ChangePrivatePassphrase oldPass newPass lw)) x = mem lw x
  /\ (x < brk lw -> mem (snd (ChangePublicPassphrase oldPass newPass lw)) x = mem lw x).
Proof.
  intros Ho Hn. split; [|split].
  - unfold UnlockWallet. destruct (loadedWallet lw) as [p|]; [|done].
    destruct (wallet_Unlock _ _) as [w' err]. simpl. by apply wipe_outside.
  - unfold ChangePrivatePassphrase.
    destruct (wallet lw) as [p|];
      [destruct (wallet_ChangePrivatePassphrase _ _ _) as [w' [e|]]|]; simpl;
      rewrite !wipe_outside; done.
  - intros Hx. unfold ChangePublicPassphrase.
    destruct (decide (len oldPass = 0)) as [Hol|Hol];
      destruct (decide (len newPass = 0)) as [Hnl|Hnl]; simpl;
      match goal with
      | |- context [wallet ?l] => destruct (wallet l) as [p|]
      end;
      try match goal with
      | |- context [wallet_ChangePublicPassphrase ?a ?b ?c] =>
          destruct (wallet_ChangePublicPassphrase a b c) as [w' [e|]]
      end; simpl;
      rewrite ?wipe_outside, ?store_bytes_outside;
      unfold inSlice; simpl; try done; try lia;
      unfold store; repeat (case_decide; [lia|]); done.
Qed.

(** X3.  ChangePublicPassphrase treats an empty argument as the insecure
    default: for buffers of the caller (below the allocation mark) the wallet
    is called with the default passphrase in place of each empty argument and
    with the buffer contents otherwise; its error, if any, is returned
    through translateError. *)
Theorem ChangePublicPassphrase_default (oldPass newPass : slice) (lw : LibWallet)
    (p : ptr) :
  wallet lw = Some p ->
  base oldPass + len oldPass <= brk lw ->
  base newPass + len newPass <= brk lw ->
  let answer :=
    wallet_ChangePublicPassphrase (objects lw p)
      (effectivePubPass (mem lw) oldPass) (effectivePubPass (mem lw) newPass) in
  fst (ChangePublicPassphrase oldPass newPass lw)
  = Ret (match snd answer with
         | Some e => Some (translateError e)
         | None => None
         end)
  /\ objects (snd (ChangePublicPassphrase oldPass newPass lw)) p = fst answer.
Proof.
  intros Hw Ho Hn. unfold ChangePublicPassphrase, effectivePubPass.
  destruct (decide (len oldPass = 0)) as [Hol|Hol];
    destruct (decide (len newPass = 0)) as [Hnl|Hnl];
    cbn -[store_bytes load InsecurePubPassphrase length]; rewrite Hw;
    rewrite ?load_store_bytes;
    rewrite ?load_store_bytes_other by (cbn -[InsecurePubPassphrase length]; lia);
    rewrite ?load_store_bytes;
    destruct (wallet_ChangePublicPassphrase _ _ _) as [w' [e|]]; simpl;
    by rewrite decide_True.
Qed.

End WalletFileMore.

(** * Further properties of the sync file *)

Lemma deliveries_app (c : ListenerCall) (ls1 ls2 : list Listener) :
  deliveries c (ls1 ++ ls2) = deliveries c ls1 ++ deliveries c ls2.
Proof. unfold deliveries. apply map_app. Qed.

Lemma deliveries_length (c : ListenerCall) (ls : list Listener) :
  length (deliveries c ls) = length ls.
Proof. unfold deliveries. apply length_map. Qed.

Section SyncFileMore.
Context {ext : Collaborators}.

Lemma peerErrors_shape (port : string) (ls : list Listener) (addresses : list string)
    (ev : Event) :
  In ev (peerErrors port ls addresses) ->
  exists l err, ev = Notify l (OnSyncError 3 err).
Proof.
  induction addresses as [|a rest IH]; simpl; [done|].
  destruct (NormalizeAddress a port) as [peer|err]; [done|].
  rewrite in_app_iff. intros [Hin|Hin]; [|by apply IH].
  unfold deliveries in Hin. apply in_map_iff in Hin as (l & <- & _). by eexists _, _.
Qed.

(** X5.  A failing SpvSync has changed nothing but the trace: it returns
    WalletNotLoaded, SyncAlreadyInProgress or InvalidPeers, the stored cancel
    handle, the context counter and both backend slots are as before, and all
    it has emitted are OnSyncError(3, ...) notifications. *)
Theorem SpvSync_failure (peerAddresses : string) (lw lw' : LibWallet) (e : error) :
  SpvSync peerAddresses lw = (Ret (Some e), lw') ->
  (e = ErrCode ErrWalletNotLoaded \/ e = ErrCode ErrSyncAlreadyInProgress
   \/ e = ErrCode ErrInvalidPeers)
  /\ exists evs,
     lw' = emit evs lw
     /\ forall ev, In ev evs -> exists l err, ev = Notify l (OnSyncError 3 err).
Proof.
  unfold SpvSync, getLoadedWalletForSyncing.
  destruct (loadedWallet lw) as [loaded|]; simpl.
  - destruct (fst (wallet_NetworkBackend (objects lw loaded))); simpl.
    + intros [= <- <-]. split; [auto|]. exists []. by rewrite emit_nil.
    + destruct (decide (peerAddresses = "")) as [->|Hne]; simpl; [done|].
      rewrite normalizePeers_spec. simpl.
      rewrite bool_decide_eq_false_2 by done. simpl.
      case_bool_decide; simpl; [|done].
      intros [= <- <-]. split; [auto|].
      eexists. split; [reflexivity|]. apply peerErrors_shape.
  - intros [= <- <-]. split; [auto|]. exists []. by rewrite emit_nil.
Qed.

(** X6.  A failing RpcSync either stopped at the loaded-wallet guard, with
    the state untouched, or failed to connect: then no backend was attached,
    no goroutine started and no client cached, but the stored cancel handle
    has already been replaced by the handle of the context created for this
    attempt. *)
Theorem RpcSync_failure (a u p : string) (cert : list byte) (lw lw' : LibWallet)
    (e : error) :
  RpcSync a u p cert lw = (Ret (Some e), lw') ->
  (getLoadedWalletForSyncing lw = inr e /\ lw' = lw)
  \/ (exists loaded,
        getLoadedWalletForSyncing lw = inl loaded
        /\ cancelSync lw' = Some (nextCtx lw)
        /\ nextCtx lw' = S (nextCtx lw)
        /\ objects lw' = objects lw
        /\ loaderBackend lw' = loaderBackend lw
        /\ rpcClient lw' = None
        /\ List.filter isSpawn (trace lw') = List.filter isSpawn (trace lw)).
Proof.
  unfold RpcSync. intros H.
  destruct (getLoadedWalletForSyncing lw) as [loaded|err]; [|left; by injection H as <- <-].
  right. exists loaded. split; [done|]. simpl in H.
  destruct (connectToRpcClient _ _ _ _ _ _) as [[client|err] lw3] eqn:Hc; [done|].
  injection H as <- <-.
  pose proof (connectToRpcClient_frame _ _ _ _ _ _ _ _ Hc) as (Ho & _ & Hb & Hcs & _ & Hs).
  simpl in *. repeat split; try done.
  - revert Hc. unfold connectToRpcClient. simpl.
    repeat case_match; intros; simplify_eq; done.
  - revert Hc. unfold connectToRpcClient. simpl.
    repeat case_match; intros; simplify_eq; done.
Qed.

(** A call that finds the cache empty. *)
Lemma connect_fresh (ctx : Ctx) (a u p : string) (cert : list byte)
    (lw lw' : LibWallet) (r : RPCClient + error) :
  rpcClient lw = None ->
  connectToRpcClient ctx a u p cert lw = (r, lw') ->
  match r with
  | inl client =>
      RPCClient_Start client ctx = None
      /\ rpcClient lw' = Some client
      /\ trace lw' = trace lw ++ [ClientStart client ctx]
      /\ forall ctx2 a2 u2 p2 cert2,
         connectToRpcClient ctx2 a2 u2 p2 cert2 lw' = (inl client, lw')
  | inr _ =>
      rpcClient lw' = None
      /\ (trace lw' = trace lw
          \/ exists client, trace lw' = trace lw ++ [ClientStart client ctx])
  end.
Proof.
  intros Hnone. unfold connectToRpcClient at 1. rewrite Hnone.
  destruct (NormalizeAddress a (jsonRPCClientPort lw)) as [a'|e1];
    [|intros [= <- <-]; auto].
  destruct (NewRPCClient _ _ _ _ _) as [client|e2]; [|intros [= <- <-]; auto].
  destruct (RPCClient_Start client ctx) as [e3|] eqn:Hs.
  - destruct e3; try destruct (errors_Match_Canceled _);
      intros [= <- <-]; simpl; (split; [done|]); right; by eexists.
  - intros [= <- <-]. simpl. repeat split; try done;
      intros; by apply connectToRpcClient_cached.
Qed.


(** The trace of a successful RpcSync. *)
Lemma RpcSync_success_shape (a u p : string) (cert : list byte) (lw lw' : LibWallet) :
  RpcSync a u p cert lw = (Ret None, lw') ->
  exists loaded client,
    getLoadedWalletForSyncing lw = inl loaded
    /\ (trace lw'
        = trace lw
          ++ deliveries (OnPeerDisconnected (-1)) (syncProgressListeners lw)
          ++ [Spawn (RpcRun loaded client (nextCtx lw))]
        \/ trace lw'
           = trace lw ++ [ClientStart client (nextCtx lw)]
             ++ deliveries (OnPeerDisconnected (-1)) (syncProgressListeners lw)
             ++ [Spawn (RpcRun loaded client (nextCtx lw))])
    /\ cancelSync lw' = Some (nextCtx lw)
    /\ rpcClient lw' = Some client.
Proof.
  intros H. apply RpcSync_success in H as (loaded & client & lw3 & Hg & Hc & ->).
  exists loaded, client. split; [done|].
  pose proof (connectToRpcClient_frame _ _ _ _ _ _ _ _ Hc) as (_ & _ & _ & Hcs & Hls & _).
  simpl in Hcs, Hls.
  destruct (rpcClient lw) as [cached|] eqn:Hcache.
  - rewrite (connectToRpcClient_cached _ _ _ _ _ _ cached) in Hc by done.
    injection Hc as <- <-. simpl. rewrite <- app_assoc. auto.
  - assert (Hc0 : rpcClient (set_cancelSync (Some (nextCtx lw))
                               (set_nextCtx (S (nextCtx lw)) lw)) = None)
      by exact Hcache.
    pose proof (connect_fresh _ _ _ _ _ _ _ _ Hc0 Hc) as (_ & Hr & Ht & _).
    simpl in Ht. rewrite broadcast_emit. simpl. rewrite Hls, Hcs, Hr, Ht.
    rewrite <- !app_assoc. auto.
Qed.

(** X8.  A successful RpcSync tells every listener once, with
    OnPeerDisconnected(-1), that no peer count will be reported, after the
    connection step and before the goroutine is started; the goroutine runs
    under the context whose cancel handle is now stored, and the client is
    cached. *)
Theorem RpcSync_success_trace (a u p : string) (cert : list byte) (lw lw' : LibWallet) :
  RpcSync a u p cert lw = (Ret None, lw') ->
  exists loaded client,
    getLoadedWalletForSyncing lw = inl loaded
    /\ (trace lw'
        = trace lw
          ++ deliveries (OnPeerDisconnected (-1)) (syncProgressListeners lw)
          ++ [Spawn (RpcRun loaded client (nextCtx lw))]
        \/ trace lw'
           = trace lw ++ [ClientStart client (nextCtx lw)]
             ++ deliveries (OnPeerDisconnected (-1)) (syncProgressListeners lw)
             ++ [Spawn (RpcRun loaded client (nextCtx lw))])
    /\ cancelSync lw' = Some (nextCtx lw)
    /\ rpcClient lw' = Some client.
Proof. apply RpcSync_success_shape. Qed.

Lemma CancelSync_with_handle (lw : LibWallet) (c : CancelFunc) :
  cancelSync lw = Some c ->
  CancelSync lw
  = emit (CancelInvoked c :: deliveries (OnSynced false) (syncProgressListeners lw)) lw.
Proof.
  intros Hc. unfold CancelSync. rewrite Hc, broadcast_emit. simpl.
  by rewrite emit_emit.
Qed.

(** X9.  After a successful start the stored handle is the one of the context
    the new goroutine runs under: the start ends with the goroutine being
    spawned on that context, and a CancelSync that follows invokes that
    handle first and then tells every listener OnSynced(false). *)
Theorem cancel_reaches_started_sync (lw lw' : LibWallet) :
  ((exists peers, SpvSync peers lw = (Ret None, lw'))
   \/ (exists a u p cert, RpcSync a u p cert lw = (Ret None, lw'))) ->
  (exists t,
     last (trace lw') = Some (Spawn t)
     /\ match t with
        | SpvRun _ ctx | RpcRun _ _ ctx => ctx = nextCtx lw
        | RescanRun _ => False
        end)
  /\ trace (CancelSync lw')
     = trace lw'
       ++ CancelInvoked (nextCtx lw)
          :: deliveries (OnSynced false) (syncProgressListeners lw).
Proof.
  intros [[peers H]|(a & u & p & cert & H)].
  - unfold SpvSync in H.
    destruct (getLoadedWalletForSyncing lw) as [loaded|err]; [|done].
    destruct (decide (peers = "")) as [->|Hne].
    + simpl in H. injection H as <-. split.
      * eexists. split; [simpl; apply last_snoc|]. done.
      * by rewrite (CancelSync_with_handle _ (nextCtx lw)).
    + rewrite normalizePeers_spec in H. simpl in H.
      destruct (_ && _); [done|]. injection H as <-. split.
      * eexists. split; [simpl; apply last_snoc|]. done.
      * by rewrite (CancelSync_with_handle _ (nextCtx lw)).
  - pose proof (RpcSync_success_shape _ _ _ _ _ _ H) as (loaded & client & _ & _ & Hcs & _).
    apply RpcSync_success in H as (loaded' & client' & lw3 & Hg & Hc & ->).
    pose proof (connectToRpcClient_frame _ _ _ _ _ _ _ _ Hc) as (_ & _ & _ & _ & Hls & _).
    simpl in Hls. split.
    + eexists. split; [simpl; apply last_snoc|]. done.
    + rewrite (CancelSync_with_handle _ (nextCtx lw)) by done. simpl. by rewrite Hls.
Qed.

End SyncFileMore.

(** X4.  An empty peer string is no peer list: past the guard SpvSync then
    always succeeds, notifies nobody, and attaches a syncer without
    persistent peers; utils.NormalizeAddress plays no part, so the result is
    the same for all collaborators. *)
Theorem SpvSync_without_peers (ext1 ext2 : Collaborators) (lw : LibWallet)
    (loaded : ptr) :
  getLoadedWalletForSyncing lw = inl loaded ->
  let r := @SpvSync ext1 "" lw in
  fst r = Ret None
  /\ trace (snd r) = trace lw ++ [Spawn (SpvRun (SPVSyncer loaded []) (nextCtx lw))]
  /\ networkBackend (objects (snd r) loaded) = Some (SPVSyncer loaded [])
  /\ loaderBackend (snd r) = Some (SPVSyncer loaded [])
  /\ r = @SpvSync ext2 "" lw.
Proof.
  intros Hg. unfold SpvSync. rewrite Hg. simpl.
  rewrite decide_True by done. done.
Qed.

(** X10.  How the end of a run loop is reported.  A nil result changes
    nothing: no listener hears of it.  Any other result is reported once to
    every listener, as OnSyncError with code 1 for context.Canceled itself,
    2 for context.DeadlineExceeded itself, and -1 with the error as it came
    for everything else, a wrapped cancellation included. *)
Theorem syncRunReturned_reports (lw : LibWallet) :
  syncRunReturned None lw = lw
  /\ (forall err,
      exists reported,
        syncRunReturned (Some err) lw
        = emit (deliveries (OnSyncError (syncErrorCode err) reported)
                  (syncProgressListeners lw)) lw
        /\ (syncErrorCode err = (-1)%Z -> reported = err)
        /\ (syncErrorCode err = 1%Z <-> err = CtxCanceled)
        /\ (syncErrorCode err = 2%Z <-> err = CtxDeadlineExceeded))
  /\ forall msg, syncErrorCode (ErrWrap msg CtxCanceled) = (-1)%Z.
Proof.
  split; [done|]. split; [|done].
  intros err. destruct err; eexists; (split; [reflexivity|]); simpl;
    repeat split; intros; done.
Qed.

(** X11.  CancelSync is a signal only.  It changes nothing but the trace: a
    stored handle is invoked before the listeners are told, and the backend
    stays attached, so a start that follows at once is still refused with
    SyncAlreadyInProgress. *)
Theorem CancelSync_is_a_signal {ext : Collaborators} (lw : LibWallet) :
  (exists evs, CancelSync lw = emit evs lw)
  /\ (forall c,
      cancelSync lw = Some c ->
      trace (CancelSync lw)
      = trace lw ++ CancelInvoked c
                    :: deliveries (OnSynced false) (syncProgressListeners lw))
  /\ (forall loaded b,
      loadedWallet lw = Some loaded ->
      networkBackend (objects lw loaded) = Some b ->
      (forall peers,
         fst (SpvSync peers (CancelSync lw))
         = Ret (Some (ErrCode ErrSyncAlreadyInProgress)))
      /\ (forall a u p cert,
         fst (RpcSync a u p cert (CancelSync lw))
         = Ret (Some (ErrCode ErrSyncAlreadyInProgress)))).
Proof.
  assert (He : exists evs, CancelSync lw = emit evs lw).
  { destruct (cancelSync lw) as [c|] eqn:Hc.
    - rewrite (CancelSync_with_handle _ c Hc). by eexists.
    - unfold CancelSync. rewrite Hc, broadcast_emit. by eexists. }
  split; [exact He|]. split.
  - intros c Hc. by rewrite (CancelSync_with_handle _ c Hc).
  - intros loaded b Hl Hb. destruct He as [evs ->].
    split; intros; unfold SpvSync, RpcSync;
      by rewrite (guard_attached (emit evs lw) loaded b).
Qed.

(** ** Rescans, continued *)

(** X12.  RescanBlocks does not raise the rescanning flag itself; the
    goroutine does, when it gets to run.  A second call made before that
    finds the flag still down, returns nil as well and starts a second
    rescan goroutine. *)
Theorem RescanBlocks_twice (lw : LibWallet) (p : ptr) (b : Backend) :
  wallet lw = Some p ->
  networkBackend (objects lw p) = Some b ->
  rescanning lw = false ->
  let first := RescanBlocks lw in
  let second := RescanBlocks (snd first) in
  fst first = Ret None
  /\ rescanning (snd first) = false
  /\ fst second = Ret None
  /\ trace (snd second)
     = trace lw ++ [Spawn (RescanRun (Some b)); Spawn (RescanRun (Some b))].
Proof.
  intros Hw Hb Hr. unfold RescanBlocks, wallet_NetworkBackend.
  rewrite Hw, Hb, Hr. simpl. rewrite Hw, Hb, Hr. simpl.
  by rewrite <- app_assoc.
Qed.

Lemma rescanLoop_app (clean rest : list RescanProgress) (total : Z) (lw : LibWallet) :
  Forall (fun p => Err p = None) clean ->
  rescanLoop (clean ++ rest) total lw
  = rescanLoop rest
      (fold_left (fun acc p => int32 (acc + ScannedThrough p)) clean total)
      (emit (progressEvents (syncProgressListeners lw) clean) lw).
Proof.
  revert total lw. induction clean as [|p clean IH]; intros total lw HF; simpl.
  - by rewrite emit_nil.
  - inversion HF as [|? ? Hp Hclean]; subst. rewrite Hp. rewrite IH by done.
    rewrite broadcast_emit, emit_emit. reflexivity.
Qed.

(** X13.  The first progress item that carries an error ends the rescan.
    The items before it have been reported, the error is logged, the items
    after it are not looked at, no last callback is made (neither PROGRESS
    nor FINISH) whether or not the context was cancelled, and the flag is
    down. *)
Theorem rescan_stops_at_error (clean rest : list RescanProgress)
    (bad : RescanProgress) (e : error) (ctxDone : bool) (lw : LibWallet) :
  Forall (fun p => Err p = None) clean ->
  Err bad = Some e ->
  let lw' := rescanTask (clean ++ bad :: rest) ctxDone lw in
  trace lw'
  = trace lw ++ progressEvents (syncProgressListeners lw) clean ++ [LogError e]
  /\ rescanning lw' = false.
Proof.
  intros HF Hbad. unfold rescanTask. simpl.
  rewrite rescanLoop_app by done. simpl. rewrite Hbad. simpl.
  by rewrite <- app_assoc.
Qed.

Lemma int32_range (z : Z) : (- 2 ^ 31 <= int32 z < 2 ^ 31)%Z.
Proof.
  unfold int32. pose proof (Z.mod_pos_bound (z + 2 ^ 31) (2 ^ 32)). lia.
Qed.

Lemma int32_exact (z : Z) : (- 2 ^ 31 <= z < 2 ^ 31)%Z -> int32 z = z.
Proof. intros Hz. unfold int32. rewrite Z.mod_small; lia. Qed.

Lemma int32_add_l (a b : Z) : int32 (int32 a + b) = int32 (a + b).
Proof.
  unfold int32.
  replace ((a + 2 ^ 31) mod 2 ^ 32 - 2 ^ 31 + b + 2 ^ 31)%Z
    with ((a + 2 ^ 31) mod 2 ^ 32 + b)%Z by lia.
  rewrite Zplus_mod_idemp_l. f_equal. f_equal. lia.
Qed.

Lemma totalHeight_from (progress : list RescanProgress) (acc : Z) :
  fold_left (fun t p => int32 (t + ScannedThrough p)) progress (int32 acc)
  = int32 (acc + scannedSum progress).
Proof.
  revert acc. induction progress as [|p rest IH]; intros acc; simpl.
  - f_equal. lia.
  - rewrite int32_add_l, IH. f_equal. lia.
Qed.

(** X14.  When the progress channel closes without an error item, the
    height the rescan goroutine sends with its last callback is the sum of
    the reported heights reduced to int32: it always lies in the int32 range,
    and it is the exact sum whenever that sum fits. *)
Theorem rescan_final_height_is_int32_sum (progress : list RescanProgress)
    (ctxDone : bool) (lw : LibWallet) :
  Forall (fun p => Err p = None) progress ->
  exists height,
    trace (rescanTask progress ctxDone lw)
    = trace lw ++ progressEvents (syncProgressListeners lw) progress
      ++ deliveries (OnRescan height (if ctxDone then PROGRESS else FINISH))
           (syncProgressListeners lw)
    /\ height = int32 (scannedSum progress)
    /\ (- 2 ^ 31 <= height < 2 ^ 31)%Z
    /\ ((- 2 ^ 31 <= scannedSum progress < 2 ^ 31)%Z -> height = scannedSum progress).
Proof.
  intros HF. exists (int32 (scannedSum progress)).
  split; [|split; [done|]].
  - assert (Hsum : fold_left (fun t p => int32 (t + ScannedThrough p)) progress 0%Z
                   = int32 (scannedSum progress)).
    { change 0%Z with (int32 0) at 1. by rewrite totalHeight_from. }
    unfold rescanTask. simpl. rewrite rescanLoop_clean by done. rewrite Hsum.
    destruct ctxDone; simpl; by rewrite <- app_assoc.
  - split.
    + apply int32_range.
    + intros Hfit. by apply int32_exact.
Qed.

(** ** Listeners *)

(** X15.  Registration only appends.  After AddSyncProgressListener every
    event goes to the listeners registered before, in the same order, and
    then to the new one; nothing checks for duplicates, so a listener that
    was registered already is called once more per event. *)
Theorem listeners_append_only (l : Listener) (c : ListenerCall) (lw : LibWallet) :
  trace (broadcast c (AddSyncProgressListener l lw))
  = trace (broadcast c lw) ++ [Notify l c]
  /\ length (List.filter (fun e => bool_decide (e = l))
               (syncProgressListeners (AddSyncProgressListener l lw)))
     = S (length (List.filter (fun e => bool_decide (e = l))
                    (syncProgressListeners lw)))
  /\ trace (AddSyncProgressListener l lw) = trace lw
  /\ cancelSync (AddSyncProgressListener l lw) = cancelSync lw.
Proof.
  split; [|split; [|done]].
  - rewrite !broadcast_emit. simpl. rewrite deliveries_app. simpl.
    by rewrite app_assoc.
  - simpl. rewrite List.filter_app, length_app. simpl.
    rewrite bool_decide_eq_true_2 by done. simpl. lia.
Qed.

(** ** Splitting the peer list *)

Lemma strings_Split_nonempty (s : string) (sep : ascii) : strings_Split s sep <> [].
Proof.
  destruct s as [|c rest]; simpl; [done|].
  case_decide; [done|]. by destruct (strings_Split rest sep).
Qed.

(** X16.  The split of the peer string loses nothing: joining the pieces
    with the separator gives the string back, there is one piece more than
    there are separators (so an empty piece for every leading, trailing or
    doubled separator), and no piece contains the separator. *)
Theorem strings_Split_Join (s : string) (sep : ascii) :
  strings_Join (strings_Split s sep) sep = s
  /\ length (strings_Split s sep) = S (occurrences sep s)
  /\ Forall (fun piece => occurrences sep piece = 0) (strings_Split s sep).
Proof.
  induction s as [|c rest (IHj & IHl & IHf)]; simpl.
  - repeat split; by repeat constructor.
  - pose proof (strings_Split_nonempty rest sep) as Hne.
    destruct (decide (c = sep)) as [->|Hc].
    + destruct (strings_Split rest sep) as [|piece pieces] eqn:Hs; [done|].
      split; [|split].
      * simpl in *. by rewrite IHj.
      * simpl in *. by rewrite IHl.
      * constructor; [done | exact IHf].
    + destruct (strings_Split rest sep) as [|piece pieces] eqn:Hs; [done|].
      split; [|split].
      * simpl in *. destruct pieces; simpl in *; by rewrite <- IHj.
      * simpl in *. by rewrite IHl.
      * inversion IHf as [|? ? Hp Hps]; subst. constructor; [|done].
        simpl. by rewrite decide_False, Hp.
Qed.

(** * Creating, opening and closing a wallet *)

Lemma length_zero_empty (s : string) : String.length s = 0 <-> s = "".
Proof. destruct s; simpl; split; intros; done. Qed.

Section LifecycleFacts.
Context {ext : Collaborators} {life : LifecycleCollaborators}.

(** X17.  CreateWallet refuses an empty mnemonic with EmptySeed before
    anything else happens.  Otherwise a mnemonic that does not decode gives
    the decoder's error; one that decodes is handed to the loader together
    with the insecure default public passphrase and the bytes of the given
    private passphrase, and lw.wallet is set to the new wallet exactly when
    the loader succeeds; on every error lw.wallet is as before. *)
Theorem CreateWallet_outcomes (passphrase seedMnemonic : string) (lw : LibWallet) :
  (seedMnemonic = "" ->
   CreateWallet passphrase seedMnemonic lw = (Some (ErrCode ErrEmptySeed), lw))
  /\ (seedMnemonic <> "" ->
      let r := CreateWallet passphrase seedMnemonic lw in
      match walletseed_DecodeUserInput seedMnemonic with
      | inr err =>
          fst r = Some err /\ wallet (snd r) = wallet lw
          /\ loadedWallet (snd r) = loadedWallet lw
      | inl seed =>
          let answer :=
            loader_CreateNewWallet InsecurePubPassphrase
              (list_byte_of_string passphrase) seed (loaderOf lw) in
          loadedWallet (snd r) = ldWallet (snd answer)
          /\ match fst answer with
             | inr err => fst r = Some err /\ wallet (snd r) = wallet lw
             | inl w => fst r = None /\ wallet (snd r) = Some w
             end
      end).
Proof.
  split.
  - intros ->. reflexivity.
  - intros Hne. unfold CreateWallet.
    rewrite decide_False by (by rewrite length_zero_empty).
    cbn -[store_bytes load InsecurePubPassphrase length list_byte_of_string].
    destruct (walletseed_DecodeUserInput seedMnemonic) as [seed|err]; [|done].
    rewrite load_store_bytes.
    rewrite load_store_bytes_other by (cbn -[InsecurePubPassphrase length]; lia).
    rewrite load_store_bytes.
    change (loaderOf (set_mem _ _ (set_mem _ _ lw))) with (loaderOf lw).
    destruct (loader_CreateNewWallet _ _ _ _) as [[w|err] st]; done.
Qed.

(** X18.  OpenWallet sets lw.wallet as soon as the loader has opened the
    wallet, before the transaction index is initialized.  When that
    initialization fails the call returns an error, yet WalletOpened answers
    true and lw.txIndexDB is left as it was; a nil return means the wallet is
    open and the index set; a loader error comes back through translateError
    with lw.wallet untouched.  The public passphrase buffer is never
    written. *)
Theorem OpenWallet_outcomes (pubPass : slice) (d : LibWalletDisk) :
  let r := OpenWallet pubPass d in
  let answer :=
    loader_OpenExistingWallet (load (mem (core d)) pubPass) (loaderOf (core d)) in
  let path := filepath_Join (walletDataDir d) txindex_DbName in
  (fst r = None ->
   WalletOpened (core (snd r)) = true /\ exists db, txIndexDB (snd r) = Some db)
  /\ (forall w err,
      fst answer = inl w -> txindex_Initialize path = inr err ->
      fst r = Some (ErrText (String.append "tx index db initialization failed: "
                               (error_Error err)))
      /\ WalletOpened (core (snd r)) = true
      /\ wallet (core (snd r)) = Some w
      /\ txIndexDB (snd r) = txIndexDB d)
  /\ (forall err,
      fst answer = inr err ->
      fst r = Some (translateError err)
      /\ wallet (core (snd r)) = wallet (core d)
      /\ txIndexDB (snd r) = txIndexDB d)
  /\ mem (core (snd r)) = mem (core d).
Proof.
  unfold OpenWallet. simpl.
  destruct (loader_OpenExistingWallet _ _) as [[w|err] st]; simpl.
  - destruct (txindex_Initialize _) as [db|err] eqn:Hinit; simpl.
    + repeat split; try done; eauto; congruence.
    + repeat split; try done; congruence.
  - repeat split; try done; congruence.
Qed.

(** X19.  CloseWallet only asks the loader to unload.  lw.wallet is not
    reset, so WalletOpened answers as before; the cached RPC client and the
    stored cancel handle are kept and nothing is cancelled or notified.  Once
    the loader reports no loaded wallet, SpvSync returns WalletNotLoaded and
    UnlockWallet its not-loaded error. *)
Theorem CloseWallet_keeps_handles (lw : LibWallet) :
  let r := CloseWallet lw in
  WalletOpened (snd r) = WalletOpened lw
  /\ wallet (snd r) = wallet lw
  /\ rpcClient (snd r) = rpcClient lw
  /\ cancelSync (snd r) = cancelSync lw
  /\ trace (snd r) = trace lw
  /\ (loadedWallet (snd r) = None ->
      (forall peers,
         fst (SpvSync peers (snd r)) = Ret (Some (ErrCode ErrWalletNotLoaded)))
      /\ (forall privPass,
         fst (UnlockWallet privPass (snd r))
         = Ret (Some (ErrText "wallet has not been loaded")))).
Proof.
  unfold CloseWallet. destruct (loader_UnloadWallet (loaderOf lw)) as [err st]. simpl.
  do 5 (split; [done|]). intros Hl. split.
  - intros peers. unfold SpvSync. by rewrite guard_not_loaded.
  - intros privPass. by rewrite UnlockWallet_not_loaded.
Qed.

End LifecycleFacts.

(** ** Instances of the further properties *)

Lemma passphrase_buffers_wiped_witness :
  loadedWallet sampleOpened = Some 0
  /\ all_zero (mem (snd (@UnlockWallet sampleCollaborators sampleSlice sampleOpened)))
       sampleSlice.
Proof.
  split; [reflexivity|].
  exact (proj2 (proj2 (passphrase_buffers_wiped (ext:=sampleCollaborators)
                         sampleSlice sampleSlice sampleOpened)) 0 eq_refl).
Defined.

Lemma wipes_stay_inside_buffers_witness :
  ~ inSlice 5 {| base := 0; len := 3 |}
  /\ ~ inSlice 5 {| base := 3; len := 1 |}
  /\ mem (snd (@ChangePrivatePassphrase sampleCollaborators
                 {| base := 0; len := 3 |} {| base := 3; len := 1 |} sampleOpened)) 5
     = "e"%byte.
Proof.
  assert (H1 : ~ inSlice 5 {| base := 0; len := 3 |}) by (unfold inSlice; simpl; lia).
  assert (H2 : ~ inSlice 5 {| base := 3; len := 1 |}) by (unfold inSlice; simpl; lia).
  split; [exact H1|]. split; [exact H2|].
  exact (proj1 (proj2 (wipes_stay_inside_buffers (ext:=sampleCollaborators)
                         _ _ sampleOpened 5 H1 H2))).
Defined.

Lemma ChangePublicPassphrase_default_witness :
  wallet sampleOpened = Some 0
  /\ base {| base := 0; len := 0 |} + len {| base := 0; len := 0 |} <= brk sampleOpened
  /\ base sampleSlice + len sampleSlice <= brk sampleOpened
  /\ fst (@ChangePublicPassphrase sampleCollaborators {| base := 0; len := 0 |}
            sampleSlice sampleOpened) = Ret None.
Proof.
  assert (H1 : base {| base := 0; len := 0 |} + len {| base := 0; len := 0 |}
               <= brk sampleOpened) by (simpl; lia).
  assert (H2 : base sampleSlice + len sampleSlice <= brk sampleOpened) by (simpl; lia).
  split; [reflexivity|]. split; [exact H1|]. split; [exact H2|].
  exact (proj1 (ChangePublicPassphrase_default (ext:=sampleCollaborators)
                  _ _ sampleOpened 0 eq_refl H1 H2)).
Defined.

Lemma SpvSync_without_peers_witness :
  getLoadedWalletForSyncing sampleOpened = inl 0
  /\ fst (@SpvSync sampleCollaborators "" sampleOpened) = Ret None.
Proof.
  split; [reflexivity|].
  exact (proj1 (SpvSync_without_peers sampleCollaborators sampleCollaborators
                  sampleOpened 0 eq_refl)).
Defined.

Lemma SpvSync_failure_witness :
  @SpvSync sampleCollaborators "bad]addr" sampleOpened
  = (Ret (Some (ErrCode ErrInvalidPeers)),
     snd (@SpvSync sampleCollaborators "bad]addr" sampleOpened))
  /\ (ErrCode ErrInvalidPeers = ErrCode ErrWalletNotLoaded
      \/ ErrCode ErrInvalidPeers = ErrCode ErrSyncAlreadyInProgress
      \/ ErrCode ErrInvalidPeers = ErrCode ErrInvalidPeers).
Proof.
  split; [reflexivity|].
  exact (proj1 (SpvSync_failure (ext:=sampleCollaborators) "bad]addr" sampleOpened
                  _ _ eq_refl)).
Defined.

Lemma RpcSync_failure_witness :
  @RpcSync sampleCollaborators "127.0.0.1" "user" "wrong" [] sampleOpened
  = (Ret (Some (ErrCode ErrUnavailable)),
     snd (@RpcSync sampleCollaborators "127.0.0.1" "user" "wrong" [] sampleOpened))
  /\ cancelSync
       (snd (@RpcSync sampleCollaborators "127.0.0.1" "user" "wrong" [] sampleOpened))
     = Some 0.
Proof.
  split; [reflexivity|].
  destruct (RpcSync_failure (ext:=sampleCollaborators)
              "127.0.0.1" "user" "wrong" [] sampleOpened _ _ eq_refl)
    as [[Hg _]|(loaded & _ & Hc & _)].
  - discriminate Hg.
  - exact Hc.
Defined.


Lemma RpcSync_success_trace_witness :
  @RpcSync sampleCollaborators "127.0.0.1" "user" "hunter2" [] sampleOpened
  = (Ret None,
     snd (@RpcSync sampleCollaborators "127.0.0.1" "user" "hunter2" [] sampleOpened))
  /\ exists client,
       rpcClient
         (snd (@RpcSync sampleCollaborators "127.0.0.1" "user" "hunter2" []
                 sampleOpened))
       = Some client.
Proof.
  split; [reflexivity|].
  destruct (RpcSync_success_trace (ext:=sampleCollaborators)
              "127.0.0.1" "user" "hunter2" [] sampleOpened _ eq_refl)
    as (loaded & client & _ & _ & _ & Hr).
  exact (ex_intro _ client Hr).
Defined.

Lemma cancel_reaches_started_sync_witness :
  @SpvSync sampleCollaborators "" sampleOpened
  = (Ret None, snd (@SpvSync sampleCollaborators "" sampleOpened))
  /\ trace (CancelSync (snd (@SpvSync sampleCollaborators "" sampleOpened)))
     = [Spawn (SpvRun (SPVSyncer 0 []) 0); CancelInvoked 0;
        Notify 10 (OnSynced false); Notify 11 (OnSynced false)].
Proof.
  split; [reflexivity|].
  exact (proj2 (cancel_reaches_started_sync (ext:=sampleCollaborators) sampleOpened _
                  (or_introl (ex_intro _ "" eq_refl)))).
Defined.

Lemma syncRunReturned_reports_witness :
  syncErrorCode (ErrForeign 9) = (-1)%Z
  /\ exists reported,
       syncRunReturned (Some (ErrForeign 9)) sampleOpened
       = emit (deliveries (OnSyncError (-1) reported) [10; 11]) sampleOpened
       /\ reported = ErrForeign 9.
Proof.
  split; [reflexivity|].
  destruct (proj1 (proj2 (syncRunReturned_reports sampleOpened)) (ErrForeign 9))
    as (reported & Heq & Hrep & _).
  exists reported. split; [exact Heq | exact (Hrep eq_refl)].
Defined.

Lemma CancelSync_is_a_signal_witness :
  loadedWallet (snd (@SpvSync sampleCollaborators "" sampleOpened)) = Some 0
  /\ networkBackend (objects (snd (@SpvSync sampleCollaborators "" sampleOpened)) 0)
     = Some (SPVSyncer 0 [])
  /\ fst (@SpvSync sampleCollaborators ""
            (CancelSync (snd (@SpvSync sampleCollaborators "" sampleOpened))))
     = Ret (Some (ErrCode ErrSyncAlreadyInProgress)).
Proof.
  split; [reflexivity|]. split; [reflexivity|].
  exact (proj1 (proj2 (proj2 (CancelSync_is_a_signal (ext:=sampleCollaborators)
                                (snd (@SpvSync sampleCollaborators "" sampleOpened))))
                  0 (SPVSyncer 0 []) eq_refl eq_refl) "").
Defined.

Lemma RescanBlocks_twice_witness :
  wallet (snd (@SpvSync sampleCollaborators "" sampleOpened)) = Some 0
  /\ networkBackend (objects (snd (@SpvSync sampleCollaborators "" sampleOpened)) 0)
     = Some (SPVSyncer 0 [])
  /\ rescanning (snd (@SpvSync sampleCollaborators "" sampleOpened)) = false
  /\ fst (RescanBlocks
            (snd (RescanBlocks (snd (@SpvSync sampleCollaborators "" sampleOpened)))))
     = Ret None.
Proof.
  split; [reflexivity|]. split; [reflexivity|]. split; [reflexivity|].
  exact (proj1 (proj2 (proj2 (RescanBlocks_twice
                                (snd (@SpvSync sampleCollaborators "" sampleOpened))
                                0 (SPVSyncer 0 []) eq_refl eq_refl eq_refl)))).
Defined.

Lemma rescan_stops_at_error_witness :
  Forall (fun p => Err p = None) [{| ScannedThrough := 5; Err := None |}]
  /\ Err {| ScannedThrough := 7; Err := Some (ErrForeign 7) |} = Some (ErrForeign 7)
  /\ trace (rescanTask ([{| ScannedThrough := 5; Err := None |}]
                        ++ {| ScannedThrough := 7; Err := Some (ErrForeign 7) |}
                           :: [{| ScannedThrough := 9; Err := None |}])
              true sampleOpened)
     = [Notify 10 (OnRescan 5 PROGRESS); Notify 11 (OnRescan 5 PROGRESS);
        LogError (ErrForeign 7)].
Proof.
  assert (HF : Forall (fun p => Err p = None) [{| ScannedThrough := 5; Err := None |}])
    by (repeat constructor).
  split; [exact HF|]. split; [reflexivity|].
  exact (proj1 (rescan_stops_at_error _ [{| ScannedThrough := 9; Err := None |}]
                  {| ScannedThrough := 7; Err := Some (ErrForeign 7) |}
                  (ErrForeign 7) true sampleOpened HF eq_refl)).
Defined.

Lemma rescan_final_height_is_int32_sum_witness :
  Forall (fun p => Err p = None)
    [{| ScannedThrough := 1999; Err := None |}; {| ScannedThrough := 2999; Err := None |}]
  /\ exists height,
       trace (rescanTask [{| ScannedThrough := 1999; Err := None |};
                          {| ScannedThrough := 2999; Err := None |}] true sampleOpened)
       = [Notify 10 (OnRescan 1999 PROGRESS); Notify 11 (OnRescan 1999 PROGRESS);
          Notify 10 (OnRescan 2999 PROGRESS); Notify 11 (OnRescan 2999 PROGRESS)]
         ++ deliveries (OnRescan height PROGRESS) [10; 11]
       /\ height = 4998%Z.
Proof.
  assert (HF : Forall (fun p => Err p = None)
                 [{| ScannedThrough := 1999; Err := None |};
                  {| ScannedThrough := 2999; Err := None |}])
    by (repeat constructor).
  split; [exact HF|].
  destruct (rescan_final_height_is_int32_sum _ true sampleOpened HF)
    as (height & Htrace & Hsum & _).
  exists height. split; [exact Htrace | exact Hsum].
Defined.

Lemma CreateWallet_outcomes_witness :
  @CreateWallet sampleLifecycle "hunter2" "" sampleClosed
  = (Some (ErrCode ErrEmptySeed), sampleClosed)
  /\ "ab ac" <> ""
  /\ wallet (snd (@CreateWallet sampleLifecycle "hunter2" "ab ac" sampleClosed)) = Some 1.
Proof.
  assert (Hne : "ab ac" <> "") by discriminate.
  split; [|split; [exact Hne|]].
  - exact (proj1 (CreateWallet_outcomes (life:=sampleLifecycle) "hunter2" "" sampleClosed)
             eq_refl).
  - exact (proj2 (proj2 (proj2 (CreateWallet_outcomes (life:=sampleLifecycle)
                                  "hunter2" "ab ac" sampleClosed) Hne))).
Defined.

Lemma OpenWallet_outcomes_witness :
  fst (@loader_OpenExistingWallet sampleLifecycle
         (load (mem (core (sampleOnDisk ""))) sampleSlice)
         (loaderOf (core (sampleOnDisk "")))) = inl 0
  /\ @txindex_Initialize sampleLifecycle "/txindex.db" = inr (ErrForeign 6)
  /\ fst (@OpenWallet sampleCollaborators sampleLifecycle sampleSlice (sampleOnDisk ""))
     = Some (ErrText "tx index db initialization failed: cannot open index")
  /\ WalletOpened
       (core (snd (@OpenWallet sampleCollaborators sampleLifecycle sampleSlice
                     (sampleOnDisk "")))) = true.
Proof.
  split; [reflexivity|]. split; [reflexivity|].
  destruct (proj1 (proj2 (OpenWallet_outcomes (ext:=sampleCollaborators)
                            (life:=sampleLifecycle) sampleSlice (sampleOnDisk "")))
              0 (ErrForeign 6) eq_refl eq_refl) as (Hret & Hopen & _).
  split; [exact Hret | exact Hopen].
Defined.

Lemma CloseWallet_keeps_handles_witness :
  loadedWallet (snd (@CloseWallet sampleLifecycle sampleOpened)) = None
  /\ WalletOpened (snd (@CloseWallet sampleLifecycle sampleOpened)) = true
  /\ fst (@SpvSync sampleCollaborators ""
            (snd (@CloseWallet sampleLifecycle sampleOpened)))
     = Ret (Some (ErrCode ErrWalletNotLoaded)).
Proof.
  split; [reflexivity|].
  pose proof (CloseWallet_keeps_handles (ext:=sampleCollaborators)
                (life:=sampleLifecycle) sampleOpened) as (Hopen & _ & _ & _ & _ & Hgone).
  split; [exact Hopen|].
  exact (proj1 (Hgone eq_refl) "").
Defined.
